(** * Revival of serialized LangChain objects: [langchain_core/load/load.py]

    A shallow embedding of [Reviver.__init__], [Reviver.__call__] and [load]
    (with its inner [_load]) and the properties of the revival algorithm:
    secret resolution, namespace validation, the lookup in the import
    mappings and the bottom-up walk.

    Conventions.
    - A Python value is a [value]: the JSON scalars and containers, plus
      live objects ([VObj]) built by the constructors the Reviver calls.
      A dict keeps its insertion order (an association list), which is the
      order in which [_load] visits the items and hence decides which
      exception is raised first.
    - An exception is a [Raise e]; a normal return is an [Ok v].
    - [os.environ] is an explicit argument [environ].
    - What [load.py] imports from elsewhere is a parameter: the four mapping
      tables of [langchain_core.load.mapping] ([MappingTables]) and the
      import machinery with the object model ([ObjectModel]).
    - Python's recursion limit is not modelled: the walk is total.
    - [loads] is [json.loads] with the Reviver as its [object_hook]; the
      parser is outside this development, which starts from the parsed
      tree as [load] does. *)

From Stdlib Require Import ZArith String List Floats.PrimFloat.
From stdpp Require Import base option list strings gmap.

Local Open Scope string_scope.
Local Open Scope list_scope.

(** ** Python values *)

Unset Elimination Schemes.
Inductive value (object : Type) : Type :=
| VNone
| VBool (b : bool)
| VInt (n : Z)
| VFloat (x : float)
| VStr (s : string)
| VList (items : list (value object))
| VDict (items : list (string * value object))
| VObj (o : object).
Set Elimination Schemes.

Arguments VNone {object}.
Arguments VBool {object} b.
Arguments VInt {object} n.
Arguments VFloat {object} x.
Arguments VStr {object} s.
Arguments VList {object} items.
Arguments VDict {object} items.
Arguments VObj {object} o.

(** Induction over the tree: the hypothesis for a container speaks of every
    element (of every item's value). *)
Section value_induction.
Context {object : Type} (P : value object → Prop).
Hypothesis HNone : P VNone.
Hypothesis HBool : ∀ b, P (VBool b).
Hypothesis HInt : ∀ n, P (VInt n).
Hypothesis HFloat : ∀ x, P (VFloat x).
Hypothesis HStr : ∀ s, P (VStr s).
Hypothesis HList : ∀ l, Forall P l → P (VList l).
Hypothesis HDict : ∀ d, Forall (λ kv, P kv.2) d → P (VDict d).
Hypothesis HObj : ∀ o, P (VObj o).

Fixpoint value_ind (v : value object) : P v :=
  match v with
  | VNone => HNone
  | VBool b => HBool b
  | VInt n => HInt n
  | VFloat x => HFloat x
  | VStr s => HStr s
  | VList l =>
      HList l (list_ind (Forall P) (Forall_nil_2 P)
                 (λ x _ IH, Forall_cons_2 P x _ (value_ind x) IH) l)
  | VDict d =>
      HDict d (list_ind (Forall (λ kv, P kv.2)) (Forall_nil_2 _)
                 (λ kv _ IH, Forall_cons_2 (λ kv, P kv.2) kv _ (value_ind kv.2) IH) d)
  | VObj o => HObj o
  end.
End value_induction.

(** ** Exceptions

    The constructors are the Python exception classes the code raises (or
    that the interpreter raises under it), with the payload of the message.
    The spec's names: MissingSecret is [KeyError_missing_secret],
    NotSerializable is [NotImplementedError_], InvalidNamespace is
    [ValueError_invalid_namespace], UnsupportedVersion is
    [ValueError_cannot_deserialize]. *)
Inductive exn (object : Type) : Type :=
| KeyError_missing_secret (key : value object)
    (* KeyError(f'Missing key "{key}" in load(secrets_map)') *)
| NotImplementedError_ (node : value object)
    (* "Trying to load an object that doesn't implement serialization: {value}" *)
| ValueError_invalid_namespace (node : value object)
    (* ValueError(f"Invalid namespace: {value}") *)
| ValueError_cannot_deserialize (key : list (value object))
    (* "Trying to deserialize something that cannot be deserialized in
       current version of langchain-core: {key}" *)
| ValueError_unpack      (* too many / not enough values to unpack *)
| IndexError             (* list or tuple index out of range *)
| KeyError               (* subscript of a dict with an absent key *)
| TypeError              (* not iterable, unhashable, not a str, not a class *)
| ImportError (name : string)       (* importlib.import_module failed *)
| AttributeError (name : string)    (* getattr(mod, name) failed *)
| ConstructionError.                (* the constructor call raised *)

Arguments KeyError_missing_secret {object} key.
Arguments NotImplementedError_ {object} node.
Arguments ValueError_invalid_namespace {object} node.
Arguments ValueError_cannot_deserialize {object} key.
Arguments ValueError_unpack {object}.
Arguments IndexError {object}.
Arguments KeyError {object}.
Arguments TypeError {object}.
Arguments ImportError {object} name.
Arguments AttributeError {object} name.
Arguments ConstructionError {object}.

Inductive result (object A : Type) : Type :=
| Ok (a : A)
| Raise (e : exn object).

Arguments Ok {object A} a.
Arguments Raise {object A} e.

Definition result_bind {object A B} (f : A → result object B)
    (m : result object A) : result object B :=
  match m with
  | Ok a => f a
  | Raise e => Raise e
  end.

#[global] Instance result_ret {object} : MRet (result object) := λ A a, Ok a.
#[global] Instance result_mbind {object} : MBind (result object) :=
  λ A B f m, result_bind f m.

(** ** What [load.py] imports *)

(** [from langchain_core.load.mapping import ...]: the four tables, from a
    key (a tuple of path segments ending in a class name) to an import path. *)
Class MappingTables := {
  SERIALIZABLE_MAPPING : gmap (list string) (list string);
  OLD_CORE_NAMESPACES_MAPPING : gmap (list string) (list string);
  _OG_SERIALIZABLE_MAPPING : gmap (list string) (list string);
  _JS_SERIALIZABLE_MAPPING : gmap (list string) (list string);
}.

(** [importlib.import_module], [getattr] on a module, [issubclass(cls,
    Serializable)] and the constructor call with keyword arguments.  [None]
    is the exception of the call ([issubclass] raises TypeError on a
    non-class).  A live object is opaque to the Reviver: it is not None,
    compares unequal to every int and str, and where the code would iterate
    over it, hash it or unpack it as keyword arguments the model raises
    TypeError. *)
Class ObjectModel := {
  object : Type;
  pymodule : Type;
  pyattr : Type;
  import_module : string → option pymodule;
  getattr : pymodule → string → option pyattr;
  issubclass_Serializable : pyattr → option bool;
  construct : pyattr → list (string * value object) → option object;
}.

(** ** Python primitives used by the Reviver *)

Section primitives.
Context {object : Type}.
#[local] Abbreviation value := (value object).
#[local] Abbreviation result := (result object).

(** [d.get(key, None)] on a dict with str keys. *)
Fixpoint dict_lookup (key : string) (d : list (string * value)) : option value :=
  match d with
  | [] => None
  | (k, v) :: rest => if String.eqb k key then Some v else dict_lookup key rest
  end.

Definition dict_get (d : list (string * value)) (key : string) : value :=
  default VNone (dict_lookup key d).

(** [v == 1]: Python compares numbers by value, and [True == 1]. *)
Definition py_eq_1 (v : value) : bool :=
  match v with
  | VBool b => b
  | VInt n => Z.eqb n 1
  | VFloat x => PrimFloat.eqb x 1%float
  | _ => false
  end.

(** [v == s] for a str literal [s]. *)
Definition py_eq_str (v : value) (s : string) : bool :=
  match v with
  | VStr s' => String.eqb s' s
  | _ => false
  end.

(** [v is not None] *)
Definition is_not_None (v : value) : bool :=
  match v with
  | VNone => false
  | _ => true
  end.

(** The elements an unpacking assignment iterates over: the elements of a
    list, the characters of a str, the keys of a dict. *)
Definition py_iter (v : value) : result (list value) :=
  match v with
  | VList l => Ok l
  | VStr s => Ok ((λ c, VStr (String c EmptyString)) <$> list_ascii_of_string s)
  | VDict d => Ok ((λ kv, VStr kv.1) <$> d)
  | _ => Raise TypeError
  end.

(** [[key] = it] *)
Definition unpack_one (it : list value) : result value :=
  match it with
  | [key] => Ok key
  | _ => Raise ValueError_unpack
  end.

(** [[*namespace, name] = it] *)
Fixpoint unpack_star_last (it : list value) : result (list value * value) :=
  match it with
  | [] => Raise ValueError_unpack
  | [name] => Ok ([], name)
  | x :: rest => '(namespace, name) ← unpack_star_last rest; Ok (x :: namespace, name)
  end.

(** [hash(v)] succeeds *)
Definition hashable (v : value) : bool :=
  match v with
  | VList _ | VDict _ | VObj _ => false
  | _ => true
  end.

Definition as_str (v : value) : option string :=
  match v with
  | VStr s => Some s
  | _ => None
  end.

(** [key in m] and [m[key]] for a dict [m] whose keys are str: [Ok None]
    is "not in". *)
Definition str_dict_find (key : value) (m : gmap string string) : result (option string) :=
  if hashable key then Ok (k ← as_str key; m !! k) else Raise TypeError.

(** [key in os.environ] and [os.environ[key]]: the key is encoded first,
    which raises TypeError unless it is a str. *)
Definition environ_find (key : value) (environ : gmap string string) : result (option string) :=
  match key with
  | VStr k => Ok (environ !! k)
  | _ => Raise TypeError
  end.

(** [key in m] and [m[key]] for a tuple [key] and a dict [m] whose keys are
    tuples of str: hashing the tuple hashes every element. *)
Definition tuple_dict_find (key : list value) (m : gmap (list string) (list string))
    : result (option (list string)) :=
  if forallb hashable key then Ok (k ← mapM as_str key; m !! k) else Raise TypeError.

(** [x in l] for a list [l] of str *)
Definition py_in_strs (x : value) (l : list string) : bool :=
  match x with
  | VStr s => bool_decide (s ∈ l)
  | _ => false
  end.

(** [".".join(segments)] raises TypeError unless every item is a str. *)
Definition dot_join (segments : list value) : result string :=
  match mapM as_str segments with
  | Some l => Ok (String.concat "." l)
  | None => Raise TypeError
  end.

(** [l[0]] and [l[-1]] *)
Definition first_item {A} (l : list A) : result A :=
  match l with
  | x :: _ => Ok x
  | [] => Raise IndexError
  end.

Definition last_item {A} (l : list A) : result A :=
  match last l with
  | Some x => Ok x
  | None => Raise IndexError
  end.

End primitives.

(** ** The module [load.py] *)

Definition DEFAULT_NAMESPACES : list string :=
  [ "langchain";
    "langchain_core";
    "langchain_community";
    "langchain_anthropic";
    "langchain_groq";
    "langchain_google_genai" ].

(** [{**a, **b}]: the entries of [b] win.  ([∪] on maps is left-biased.) *)
Definition dict_merge {K V} `{Countable K} (a b : gmap K V) : gmap K V := b ∪ a.

Definition ALL_SERIALIZABLE_MAPPINGS `{MappingTables} : gmap (list string) (list string) :=
  dict_merge
    (dict_merge
       (dict_merge SERIALIZABLE_MAPPING OLD_CORE_NAMESPACES_MAPPING)
       _OG_SERIALIZABLE_MAPPING)
    _JS_SERIALIZABLE_MAPPING.

(** The attributes of a [Reviver] instance. *)
Record Reviver := {
  secrets_from_env : bool;
  secrets_map : gmap string string;
  valid_namespaces : list string;
  additional_import_mappings : gmap (list string) (list string);
  import_mappings : gmap (list string) (list string);
}.

Section load.
Context `{MT : MappingTables} `{OM : ObjectModel}.
#[local] Abbreviation value := (value object).
#[local] Abbreviation result := (result object).

(** [Reviver.__init__]; an argument left at its default is [None]. *)
Definition Reviver_init
    (secrets_map : option (gmap string string))
    (valid_namespaces : option (list string))
    (secrets_from_env : bool)
    (additional_import_mappings : option (gmap (list string) (list string)))
    : Reviver :=
  let additional := default ∅ additional_import_mappings in
  {| secrets_from_env := secrets_from_env;
     secrets_map := default ∅ secrets_map;
     valid_namespaces :=
       match valid_namespaces with
       | Some ((_ :: _) as extra) => DEFAULT_NAMESPACES ++ extra
       | _ => DEFAULT_NAMESPACES
       end;
     additional_import_mappings := additional;
     import_mappings :=
       if decide (additional = ∅) then ALL_SERIALIZABLE_MAPPINGS
       else dict_merge ALL_SERIALIZABLE_MAPPINGS additional |}.

(** The secret branch, lines 82-88. *)
Definition revive_secret (self : Reviver) (environ : gmap string string)
    (id_ : value) : result value :=
  it ← py_iter id_;
  key ← unpack_one it;
  found ← str_dict_find key (secrets_map self);
  match found with
  | Some secret => Ok (VStr secret)
  | None =>
      from_env ←
        (if secrets_from_env self then environ_find key environ else Ok None);
      match from_env with
      | Some (String _ _ as v) => Ok (VStr v)
      | Some EmptyString | None => Raise (KeyError_missing_secret key)
      end
  end.

(** Lines 124-130: split the import path into module and name, import the
    module, get the class. *)
Definition import_by_path (import_path : list string) : result pyattr :=
  let import_dir := removelast import_path in
  import_obj ← last_item import_path;
  let dotted := String.concat "." import_dir in
  match import_module dotted with
  | None => Raise (ImportError dotted)
  | Some mod_ =>
      match getattr mod_ import_obj with
      | None => Raise (AttributeError import_obj)
      | Some cls => Ok cls
      end
  end.

(** Lines 114-139: from the namespace and the name to the class. *)
Definition resolve_class (self : Reviver) (namespace : list value) (name : value)
    : result pyattr :=
  let key := namespace ++ [name] in
  ns0 ← first_item namespace;
  if py_in_strs ns0 DEFAULT_NAMESPACES then
    found ← tuple_dict_find key (import_mappings self);
    match found with
    | None => Raise (ValueError_cannot_deserialize key)
    | Some import_path => import_by_path import_path
    end
  else
    overridden ← tuple_dict_find key (additional_import_mappings self);
    '(mod_, name) ←
      match overridden with
      | Some _ =>
          found ← tuple_dict_find key (import_mappings self);
          match found with
          | None => Raise KeyError
          | Some import_path =>
              let dotted := String.concat "." (removelast import_path) in
              match import_module dotted with
              | None => Raise (ImportError dotted)
              | Some mod_ => name ← last_item import_path; Ok (mod_, VStr name)
              end
          end
      | None =>
          dotted ← dot_join namespace;
          match import_module dotted with
          | None => Raise (ImportError dotted)
          | Some mod_ => Ok (mod_, name)
          end
      end;
    match name with
    | VStr attr =>
        match getattr mod_ attr with
        | None => Raise (AttributeError attr)
        | Some cls => Ok cls
        end
    | _ => Raise TypeError
    end.

(** Lines 141-148: the subclass check and the constructor call. *)
Definition instantiate (cls : pyattr) (node : list (string * value)) : result value :=
  match issubclass_Serializable cls with
  | None => Raise TypeError
  | Some false => Raise (ValueError_invalid_namespace (VDict node))
  | Some true =>
      let kwargs := default (VDict []) (dict_lookup "kwargs" node) in
      match kwargs with
      | VDict kw =>
          match construct cls kw with
          | Some o => Ok (VObj o)
          | None => Raise ConstructionError
          end
      | _ => Raise TypeError
      end
  end.

(** The constructor branch, lines 105-148. *)
Definition revive_constructor (self : Reviver) (node : list (string * value))
    (id_ : value) : result value :=
  it ← py_iter id_;
  '(namespace, name) ← unpack_star_last it;
  ns0 ← first_item namespace;
  if negb (py_in_strs ns0 (valid_namespaces self)) then
    Raise (ValueError_invalid_namespace (VDict node))
  else if (length namespace =? 1)%nat && py_eq_str ns0 "langchain" then
    Raise (ValueError_invalid_namespace (VDict node))
  else
    cls ← resolve_class self namespace name;
    instantiate cls node.

(** [Reviver.__call__].  In each branch [value["id"]] is [value.get("id")],
    which the test has found to be not None. *)
Definition Reviver_call (self : Reviver) (environ : gmap string string)
    (node : list (string * value)) : result value :=
  let lc := dict_get node "lc" in
  let type_ := dict_get node "type" in
  let id_ := dict_get node "id" in
  if py_eq_1 lc && py_eq_str type_ "secret" && is_not_None id_ then
    revive_secret self environ id_
  else if py_eq_1 lc && py_eq_str type_ "not_implemented" && is_not_None id_ then
    Raise (NotImplementedError_ (VDict node))
  else if py_eq_1 lc && py_eq_str type_ "constructor" && is_not_None id_ then
    revive_constructor self node id_
  else
    Ok (VDict node).

(** The inner function [_load] of [load], for the reviver [load] has built. *)
Fixpoint _load (reviver : Reviver) (environ : gmap string string) (obj : value)
    : result value :=
  match obj with
  | VDict d =>
      loaded_obj ←
        (fix items (d : list (string * value)) : result (list (string * value)) :=
           match d with
           | [] => Ok []
           | (k, v) :: rest =>
               v' ← _load reviver environ v;
               rest' ← items rest;
               Ok ((k, v') :: rest')
           end) d;
      Reviver_call reviver environ loaded_obj
  | VList l =>
      loaded ←
        (fix elements (l : list value) : result (list value) :=
           match l with
           | [] => Ok []
           | o :: rest =>
               o' ← _load reviver environ o;
               rest' ← elements rest;
               Ok (o' :: rest')
           end) l;
      Ok (VList loaded)
  | _ => Ok obj
  end.

(** [load(obj, secrets_map=..., valid_namespaces=..., secrets_from_env=...,
    additional_import_mappings=...)] *)
Definition load (obj : value)
    (secrets_map : option (gmap string string))
    (valid_namespaces : option (list string))
    (secrets_from_env : bool)
    (additional_import_mappings : option (gmap (list string) (list string)))
    (environ : gmap string string) : result value :=
  let reviver :=
    Reviver_init secrets_map valid_namespaces secrets_from_env additional_import_mappings in
  _load reviver environ obj.

(** The dict and list comprehensions of [_load], named. *)
Fixpoint load_items (reviver : Reviver) (environ : gmap string string)
    (d : list (string * value)) : result (list (string * value)) :=
  match d with
  | [] => Ok []
  | (k, v) :: rest =>
      v' ← _load reviver environ v;
      rest' ← load_items reviver environ rest;
      Ok ((k, v') :: rest')
  end.

Fixpoint load_elements (reviver : Reviver) (environ : gmap string string)
    (l : list value) : result (list value) :=
  match l with
  | [] => Ok []
  | o :: rest =>
      o' ← _load reviver environ o;
      rest' ← load_elements reviver environ rest;
      Ok (o' :: rest')
  end.

(** [revived reviver environ d d']: [d'] has the keys of [d], in the same
    order, and each value of [d'] is what [_load] returns for the value of
    [d] under the same key. *)
Definition revived (reviver : Reviver) (environ : gmap string string)
    (d d' : list (string * value)) : Prop :=
  Forall2 (λ kv kv', kv'.1 = kv.1 ∧ _load reviver environ kv.2 = Ok kv'.2) d d'.

End load.

(** ** Predicates on trees used by the statements *)

Section trees.
Context {object : Type}.
#[local] Abbreviation value := (value object).

(** No dict of the tree has an [lc] field that the test [== 1] accepts. *)
Fixpoint no_lc_1 (v : value) : bool :=
  match v with
  | VDict d =>
      negb (py_eq_1 (dict_get d "lc"))
      && (fix all (d : list (string * value)) : bool :=
            match d with
            | [] => true
            | (_, x) :: rest => no_lc_1 x && all rest
            end) d
  | VList l =>
      (fix all (l : list value) : bool :=
         match l with
         | [] => true
         | x :: rest => no_lc_1 x && all rest
         end) l
  | _ => true
  end.

(** [occurs_in t v]: the tree [t] is [v] or sits somewhere below it. *)
Inductive occurs_in (t : value) : value → Prop :=
| occurs_here : occurs_in t t
| occurs_in_list l x : x ∈ l → occurs_in t x → occurs_in t (VList l)
| occurs_in_dict d k x : (k, x) ∈ d → occurs_in t x → occurs_in t (VDict d).

(** The first two tests of each branch of [Reviver.__call__]:
    [value.get("lc", None) == 1 and value.get("type", None) == type_]. *)
Definition has_tag (node : list (string * value)) (type_ : string) : bool :=
  py_eq_1 (dict_get node "lc") && py_eq_str (dict_get node "type") type_.

End trees.

(** ** A small instance, for the examples

    One entry in the built-in table; every module imports, every attribute
    exists and is a Serializable class, and a constructor records the class
    and the keyword arguments it was called with. *)
Module Demo.

Unset Elimination Schemes.
Inductive instance : Type :=
| Live (cls : string) (kwargs : list (string * value instance)).
Set Elimination Schemes.

Definition prompt_key : list string :=
  ["langchain"; "prompts"; "prompt"; "PromptTemplate"].

Definition prompt_path : list string :=
  ["langchain_core"; "prompts"; "prompt"; "PromptTemplate"].

Definition tables : MappingTables := {|
  SERIALIZABLE_MAPPING := {[ prompt_key := prompt_path ]};
  OLD_CORE_NAMESPACES_MAPPING := ∅;
  _OG_SERIALIZABLE_MAPPING := ∅;
  _JS_SERIALIZABLE_MAPPING := ∅;
|}.

Definition model : ObjectModel := {|
  object := instance;
  pymodule := string;
  pyattr := string;
  import_module name := Some name;
  getattr mod_ name := Some (String.concat "." [mod_; name]);
  issubclass_Serializable _ := Some true;
  construct cls kwargs := Some (Live cls kwargs);
|}.

Definition node (type_ : string) (id_ : list string) (rest : list (string * value instance))
    : list (string * value instance) :=
  ("lc", VInt 1) :: ("type", VStr type_) :: ("id", VList (VStr <$> id_)) :: rest.

End Demo.

(** The small instance with one attribute that is not a Serializable
    class: the function [os.system]. *)
Module Demo2.

Definition model : ObjectModel := {|
  object := Demo.instance;
  pymodule := string;
  pyattr := string;
  import_module name := Some name;
  getattr mod_ name := Some (String.concat "." [mod_; name]);
  issubclass_Serializable cls := Some (negb (String.eqb cls "os.system"));
  construct cls kwargs := Some (Demo.Live cls kwargs);
|}.

End Demo2.

(** * Properties *)

(** One step of the exception monad: a bind whose left side is a result. *)
Ltac run_bind := cbn [mbind result_mbind result_bind].
Tactic Notation "run_bind" "in" hyp(H) := cbn [mbind result_mbind result_bind] in H.

(** A computation that has returned: every bind and every test on its way
    has, so the cases that raise are closed. *)
Ltac returns_Ok H :=
  repeat first
    [ discriminate H
    | match type of H with
      | mbind _ ?m = Ok _ =>
          destruct m eqn:?; cbn [mbind result_mbind result_bind] in H
      | match ?x with _ => _ end = Ok _ => destruct x eqn:?
      | (let '(_, _) := ?x in _) = Ok _ => destruct x eqn:?
      end ].

(** ** The model at work, on the small instance *)

Example load_prompt_template :
  load (MT:=Demo.tables) (OM:=Demo.model)
    (VDict (Demo.node "constructor" Demo.prompt_key
              [("kwargs", VDict [("template", VStr "{x}")])]))
    None None true None ∅
  = Ok (VObj (Demo.Live "langchain_core.prompts.prompt.PromptTemplate"
                [("template", VStr "{x}")])).
Proof. by vm_compute. Qed.

Example load_unknown_namespace :
  load (MT:=Demo.tables) (OM:=Demo.model)
    (VDict (Demo.node "constructor" ["unknown_ns"; "Foo"] []))
    None None true None ∅
  = Raise (ValueError_invalid_namespace
             (VDict (Demo.node "constructor" ["unknown_ns"; "Foo"] []))).
Proof. by vm_compute. Qed.

Example load_allowed_namespace_by_path :
  load (MT:=Demo.tables) (OM:=Demo.model)
    (VDict (Demo.node "constructor" ["my_pkg"; "tools"; "Foo"] []))
    None (Some ["my_pkg"]) true None ∅
  = Ok (VObj (Demo.Live "my_pkg.tools.Foo" [])).
Proof. by vm_compute. Qed.

Example load_secret_from_environ :
  load (MT:=Demo.tables) (OM:=Demo.model)
    (VList [VDict (Demo.node "secret" ["API_KEY"] []); VStr "plain"])
    None None true None {[ "API_KEY" := "from-env" ]}
  = Ok (VList [VStr "from-env"; VStr "plain"]).
Proof. by vm_compute. Qed.

Example load_secret_id_of_two :
  load (MT:=Demo.tables) (OM:=Demo.model)
    (VDict (Demo.node "secret" ["A"; "B"] []))
    None None true None ∅
  = Raise ValueError_unpack.
Proof. by vm_compute. Qed.

Example load_lc_true_is_a_node :
  load (MT:=Demo.tables) (OM:=Demo.model)
    (VDict [("lc", VBool true); ("type", VStr "secret"); ("id", VList [VStr "API_KEY"])])
    (Some {[ "API_KEY" := "from-map" ]}) None true None ∅
  = Ok (VStr "from-map").
Proof. by vm_compute. Qed.

(** ** The primitives *)

Section primitive_facts.
Context {object : Type}.
#[local] Abbreviation value := (value object).

Lemma dict_get_Some (d : list (string * value)) (key : string) (v : value) :
  dict_lookup key d = Some v → dict_get d key = v.
Proof. unfold dict_get. by intros ->. Qed.

Lemma py_eq_str_true (v : value) (s : string) :
  py_eq_str v s = true ↔ v = VStr s.
Proof.
  destruct v; simpl; try (split; [discriminate | congruence]).
  rewrite String.eqb_eq. split; congruence.
Qed.

Lemma py_eq_str_VStr (s s' : string) :
  py_eq_str (VStr s : value) s' = bool_decide (s = s').
Proof.
  simpl. destruct (String.eqb_spec s s');
    [rewrite bool_decide_true | rewrite bool_decide_false]; done.
Qed.

Lemma has_tag_true (node : list (string * value)) (type_ : string) :
  has_tag node type_ = true ↔
  py_eq_1 (dict_get node "lc") = true ∧ dict_get node "type" = VStr type_.
Proof. unfold has_tag. by rewrite andb_true_iff, py_eq_str_true. Qed.

Lemma unpack_star_last_snoc (namespace : list value) (name : value) :
  unpack_star_last (namespace ++ [name]) = Ok (namespace, name).
Proof.
  induction namespace as [|x rest IH]; [done|].
  change ((x :: rest) ++ [name]) with (x :: (rest ++ [name])).
  destruct (rest ++ [name]) as [|y tl] eqn:E.
  - by destruct rest.
  - simpl. simpl in IH. by rewrite IH.
Qed.

Lemma mapM_as_str_VStr (l : list string) :
  mapM as_str ((VStr <$> l) : list value) = Some l.
Proof. apply mapM_Some. induction l; by constructor. Qed.

Lemma forallb_hashable_VStr (l : list string) :
  forallb hashable ((VStr <$> l) : list value) = true.
Proof. by induction l. Qed.

Lemma tuple_dict_find_strs (key : list string) (m : gmap (list string) (list string)) :
  tuple_dict_find ((VStr <$> key) : list value) m = Ok (m !! key).
Proof.
  unfold tuple_dict_find. by rewrite forallb_hashable_VStr, mapM_as_str_VStr.
Qed.

Lemma py_in_strs_VStr (s : string) (l : list string) :
  py_in_strs (VStr s : value) l = bool_decide (s ∈ l).
Proof. done. Qed.

End primitive_facts.

(** ** The Reviver on one node *)

Section reviver_facts.
Context `{MT : MappingTables} `{OM : ObjectModel}.
#[local] Abbreviation value := (value object).

Lemma Reviver_call_secret (self : Reviver) (environ : gmap string string)
    (node : list (string * value)) :
  has_tag node "secret" = true →
  dict_get node "id" ≠ VNone →
  Reviver_call self environ node = revive_secret self environ (dict_get node "id").
Proof.
  intros [Hlc Hty]%has_tag_true Hid. unfold Reviver_call. rewrite Hlc, Hty. simpl.
  by destruct (dict_get node "id").
Qed.

Lemma Reviver_call_not_implemented (self : Reviver) (environ : gmap string string)
    (node : list (string * value)) :
  has_tag node "not_implemented" = true →
  dict_get node "id" ≠ VNone →
  Reviver_call self environ node = Raise (NotImplementedError_ (VDict node)).
Proof.
  intros [Hlc Hty]%has_tag_true Hid. unfold Reviver_call. rewrite Hlc, Hty. simpl.
  by destruct (dict_get node "id").
Qed.

Lemma Reviver_call_constructor (self : Reviver) (environ : gmap string string)
    (node : list (string * value)) :
  has_tag node "constructor" = true →
  dict_get node "id" ≠ VNone →
  Reviver_call self environ node = revive_constructor self node (dict_get node "id").
Proof.
  intros [Hlc Hty]%has_tag_true Hid. unfold Reviver_call. rewrite Hlc, Hty. simpl.
  by destruct (dict_get node "id").
Qed.

Lemma Reviver_call_untagged (self : Reviver) (environ : gmap string string)
    (node : list (string * value)) :
  py_eq_1 (dict_get node "lc") = false →
  Reviver_call self environ node = Ok (VDict node).
Proof. intros Hlc. unfold Reviver_call. by rewrite Hlc. Qed.

Lemma revive_secret_in_map (self : Reviver) (environ : gmap string string)
    (K secret : string) :
  secrets_map self !! K = Some secret →
  revive_secret self environ (VList [VStr K]) = Ok (VStr secret).
Proof. intros Hin. unfold revive_secret. simpl. by rewrite Hin. Qed.

Lemma revive_secret_not_in_map (self : Reviver) (environ : gmap string string)
    (K : string) :
  secrets_map self !! K = None →
  revive_secret self environ (VList [VStr K]) =
    if secrets_from_env self then
      match environ !! K with
      | Some (String _ _ as v) => Ok (VStr v)
      | _ => Raise (KeyError_missing_secret (VStr K))
      end
    else Raise (KeyError_missing_secret (VStr K)).
Proof.
  intros Hout. unfold revive_secret. simpl. rewrite Hout. simpl.
  destruct (secrets_from_env self); [|done]. simpl.
  by destruct (environ !! K) as [[|c v]|].
Qed.

Lemma DEFAULT_NAMESPACES_valid
    (sm : option (gmap string string)) (vn : option (list string)) (sfe : bool)
    (aim : option (gmap (list string) (list string))) (s : string) :
  s ∈ DEFAULT_NAMESPACES → s ∈ valid_namespaces (Reviver_init sm vn sfe aim).
Proof.
  intros Hs. unfold Reviver_init. cbn [valid_namespaces].
  destruct vn as [[|x extra]|]; try done.
  apply elem_of_app. by left.
Qed.

Lemma import_mappings_override
    (sm : option (gmap string string)) (vn : option (list string)) (sfe : bool)
    (additional : gmap (list string) (list string)) (key path : list string) :
  additional !! key = Some path →
  import_mappings (Reviver_init sm vn sfe (Some additional)) !! key = Some path.
Proof.
  intros Hk. simpl. destruct (decide (additional = ∅)) as [->|_].
  - by rewrite lookup_empty in Hk.
  - unfold dict_merge. by apply lookup_union_Some_l.
Qed.

End reviver_facts.

(** ** Secrets *)

Section secrets.
Context `{MT : MappingTables} `{OM : ObjectModel}.
#[local] Abbreviation value := (value object).

(** C1. A secret node [{lc: 1, type: "secret", id: [K]}] whose key [K] is in
    the secrets map revives to [secrets_map[K]], whatever the process
    environment holds: for any two environments (one may bind [K] to another
    string, the other may not bind it at all) both runs return that value,
    so the environment has no influence on the result. *)
Theorem secret_in_map_ignores_environ
    (sm : gmap string string) (vn : option (list string)) (sfe : bool)
    (aim : option (gmap (list string) (list string)))
    (environ environ' : gmap string string)
    (node : list (string * value)) (K secret : string) :
  has_tag node "secret" = true →
  dict_get node "id" = VList [VStr K] →
  sm !! K = Some secret →
  let self := Reviver_init (Some sm) vn sfe aim in
  Reviver_call self environ node = Ok (VStr secret)
  ∧ Reviver_call self environ' node = Ok (VStr secret).
Proof.
  intros Htag Hid Hin self.
  rewrite !Reviver_call_secret by (done || by rewrite Hid).
  rewrite Hid. split; by apply revive_secret_in_map.
Qed.

(** C6. A secret node whose key [K] is not in the secrets map: with
    [secrets_from_env] true and [K] bound to a non-empty string [v] in the
    environment it revives to [v]; with [secrets_from_env] false, or [K]
    unbound, or [K] bound to the empty string, the KeyError naming [K]
    (missing secret) is raised. *)
Theorem secret_not_in_map_falls_back_to_environ
    (sm : option (gmap string string)) (vn : option (list string)) (sfe : bool)
    (aim : option (gmap (list string) (list string)))
    (environ : gmap string string)
    (node : list (string * value)) (K : string) :
  has_tag node "secret" = true →
  dict_get node "id" = VList [VStr K] →
  default ∅ sm !! K = None →
  let self := Reviver_init sm vn sfe aim in
  (∀ v, sfe = true → environ !! K = Some v → v ≠ EmptyString →
        Reviver_call self environ node = Ok (VStr v))
  ∧ (sfe = false ∨ environ !! K = None ∨ environ !! K = Some EmptyString →
        Reviver_call self environ node = Raise (KeyError_missing_secret (VStr K))).
Proof.
  intros Htag Hid Hout self.
  rewrite Reviver_call_secret by (done || by rewrite Hid).
  rewrite Hid, revive_secret_not_in_map by done. simpl. split.
  - intros v -> -> Hv. by destruct v.
  - intros [-> | [-> | ->]]; [done | by destruct sfe ..].
Qed.

(** C10. A dict without an [id] field, or whose [id] is None, is returned
    unchanged and nothing is raised, whatever its [lc] and [type] are; in
    particular when [lc] is 1 and [type] is "secret", "not_implemented" or
    "constructor": each of the three branches also tests that [id] is not
    None. *)
Theorem node_without_id_passes_through
    (self : Reviver) (environ : gmap string string) (node : list (string * value)) :
  dict_get node "id" = VNone →
  Reviver_call self environ node = Ok (VDict node).
Proof.
  intros Hid. unfold Reviver_call. rewrite Hid. simpl.
  by rewrite !andb_false_r.
Qed.

End secrets.

Lemma secret_in_map_ignores_environ_witness :
  Reviver_call (OM:=Demo.model)
    (Reviver_init (MT:=Demo.tables) (Some {[ "API_KEY" := "from-map" ]}) None true None)
    {[ "API_KEY" := "from-env" ]} (Demo.node "secret" ["API_KEY"] [])
  = Ok (VStr "from-map")
  ∧ Reviver_call (OM:=Demo.model)
      (Reviver_init (MT:=Demo.tables) (Some {[ "API_KEY" := "from-map" ]}) None true None)
      ∅ (Demo.node "secret" ["API_KEY"] [])
    = Ok (VStr "from-map").
Proof.
  apply (secret_in_map_ignores_environ (MT:=Demo.tables) (OM:=Demo.model)
           {[ "API_KEY" := "from-map" ]} None true None
           {[ "API_KEY" := "from-env" ]} ∅
           (Demo.node "secret" ["API_KEY"] []) "API_KEY" "from-map");
    vm_compute; reflexivity.
Defined.

Lemma secret_not_in_map_falls_back_to_environ_witness :
  Reviver_call (OM:=Demo.model)
    (Reviver_init (MT:=Demo.tables) None None true None)
    {[ "API_KEY" := "from-env" ]} (Demo.node "secret" ["API_KEY"] [])
  = Ok (VStr "from-env")
  ∧ Reviver_call (OM:=Demo.model)
      (Reviver_init (MT:=Demo.tables) None None false None)
      {[ "API_KEY" := "from-env" ]} (Demo.node "secret" ["API_KEY"] [])
    = Raise (KeyError_missing_secret (VStr "API_KEY")).
Proof.
  split.
  - refine (proj1 (secret_not_in_map_falls_back_to_environ
                     (MT:=Demo.tables) (OM:=Demo.model)
                     None None true None {[ "API_KEY" := "from-env" ]}
                     (Demo.node "secret" ["API_KEY"] []) "API_KEY" _ _ _)
                  "from-env" _ _ _);
      vm_compute; (reflexivity || discriminate).
  - refine (proj2 (secret_not_in_map_falls_back_to_environ
                     (MT:=Demo.tables) (OM:=Demo.model)
                     None None false None {[ "API_KEY" := "from-env" ]}
                     (Demo.node "secret" ["API_KEY"] []) "API_KEY" _ _ _) _);
      [vm_compute; reflexivity .. | left; reflexivity].
Defined.

Lemma node_without_id_passes_through_witness :
  Reviver_call (OM:=Demo.model)
    (Reviver_init (MT:=Demo.tables) None None true None) ∅
    [("lc", VInt 1); ("type", VStr "constructor"); ("kwargs", VDict [])]
  = Ok (VDict [("lc", VInt 1); ("type", VStr "constructor"); ("kwargs", VDict [])]).
Proof.
  apply (node_without_id_passes_through (OM:=Demo.model)); reflexivity.
Defined.

(** ** Constructor nodes *)

Section constructors.
Context `{MT : MappingTables} `{OM : ObjectModel}.
#[local] Abbreviation value := (value object).

(** The key of a node whose id is a list of str: namespace and name. *)
Lemma id_strs_split (ns0 : string) (segments : list string) (name : string) :
  (VStr <$> (ns0 :: segments ++ [name]) : list value)
  = (VStr <$> (ns0 :: segments)) ++ [VStr name].
Proof. by rewrite !fmap_cons, fmap_app. Qed.

Lemma resolve_class_builtin (self : Reviver)
    (ns0 : string) (segments : list string) (name : string) :
  ns0 ∈ DEFAULT_NAMESPACES →
  resolve_class self (VStr <$> (ns0 :: segments)) (VStr name) =
    match import_mappings self !! (ns0 :: segments ++ [name]) with
    | None => Raise (ValueError_cannot_deserialize (VStr <$> (ns0 :: segments ++ [name])))
    | Some import_path => import_by_path import_path
    end.
Proof.
  intros Hns. unfold resolve_class.
  rewrite <- id_strs_split, tuple_dict_find_strs, (fmap_cons VStr ns0 segments).
  cbn [first_item mbind result_mbind result_bind].
  rewrite py_in_strs_VStr, bool_decide_true by done.
  by destruct (import_mappings self !! _).
Qed.

Lemma revive_constructor_strs (self : Reviver) (node : list (string * value))
    (ns0 : string) (segments : list string) (name : string) :
  ns0 ∈ valid_namespaces self →
  revive_constructor self node (VList (VStr <$> (ns0 :: segments ++ [name]))) =
    if bool_decide (segments = [] ∧ ns0 = "langchain") then
      Raise (ValueError_invalid_namespace (VDict node))
    else
      cls ← resolve_class self (VStr <$> (ns0 :: segments)) (VStr name);
      instantiate cls node.
Proof.
  intros Hvalid. unfold revive_constructor. cbn [py_iter].
  rewrite id_strs_split. run_bind.
  rewrite unpack_star_last_snoc. run_bind.
  rewrite (fmap_cons VStr ns0 segments) at 1.
  cbn [first_item]. run_bind.
  rewrite py_in_strs_VStr, bool_decide_true by done. cbn [negb].
  rewrite py_eq_str_VStr. cbn [length].
  destruct segments as [|s segments]; cbn [length fmap list_fmap Nat.eqb andb].
  - destruct (decide (ns0 = "langchain")) as [->|Hne].
    + by rewrite !bool_decide_true.
    + by rewrite !bool_decide_false by intuition congruence.
  - by rewrite bool_decide_false by intuition congruence.
Qed.

(** C5. A constructor node whose namespace is the single segment
    "langchain" (its id is ["langchain", name]) raises the ValueError
    "Invalid namespace", although "langchain" is an allowed namespace, and
    whatever namespaces and import mappings the caller adds. *)
Theorem bare_root_namespace_rejected
    (sm : option (gmap string string)) (vn : option (list string)) (sfe : bool)
    (aim : option (gmap (list string) (list string)))
    (environ : gmap string string)
    (node : list (string * value)) (name : value) :
  has_tag node "constructor" = true →
  dict_get node "id" = VList [VStr "langchain"; name] →
  Reviver_call (Reviver_init sm vn sfe aim) environ node
  = Raise (ValueError_invalid_namespace (VDict node)).
Proof.
  intros Htag Hid.
  rewrite Reviver_call_constructor by (done || by rewrite Hid).
  rewrite Hid. unfold revive_constructor.
  cbn [py_iter unpack_star_last first_item mbind result_mbind result_bind].
  rewrite py_in_strs_VStr, bool_decide_true; [done|].
  apply DEFAULT_NAMESPACES_valid. set_solver.
Qed.

(** C3 (what the code does). A constructor node whose id has exactly one
    element has an empty namespace, and [namespace[0]] raises IndexError:
    the node is rejected, but not with the ValueError "Invalid namespace". *)
Theorem single_element_id_raises_IndexError
    (self : Reviver) (environ : gmap string string)
    (node : list (string * value)) (x : value) :
  has_tag node "constructor" = true →
  dict_get node "id" = VList [x] →
  Reviver_call self environ node = Raise IndexError.
Proof.
  intros Htag Hid.
  rewrite Reviver_call_constructor by (done || by rewrite Hid).
  by rewrite Hid.
Qed.

(** C7, amended. A constructor node whose id is a list of str, whose first
    namespace segment is one of the built-in namespaces and whose namespace
    is not the single segment "langchain": when the key (namespace and
    class name) has no entry in the import mappings, the ValueError "Trying
    to deserialize something that cannot be deserialized ..." (unsupported
    version) is raised.  The result is the same for every object model:
    nothing is imported and nothing is constructed. *)
Theorem builtin_key_without_entry_unsupported
    (sm : option (gmap string string)) (vn : option (list string)) (sfe : bool)
    (aim : option (gmap (list string) (list string)))
    (environ : gmap string string)
    (node : list (string * value))
    (ns0 : string) (segments : list string) (name : string) :
  has_tag node "constructor" = true →
  dict_get node "id" = VList (VStr <$> (ns0 :: segments ++ [name])) →
  ns0 ∈ DEFAULT_NAMESPACES →
  ¬ (segments = [] ∧ ns0 = "langchain") →
  let self := Reviver_init sm vn sfe aim in
  import_mappings self !! (ns0 :: segments ++ [name]) = None →
  Reviver_call self environ node
  = Raise (ValueError_cannot_deserialize (VStr <$> (ns0 :: segments ++ [name]))).
Proof.
  intros Htag Hid Hns Hroot self Hkey.
  rewrite Reviver_call_constructor by (done || by rewrite Hid).
  rewrite Hid, revive_constructor_strs by by apply DEFAULT_NAMESPACES_valid.
  rewrite bool_decide_false by done.
  by rewrite resolve_class_builtin, Hkey by done.
Qed.

(** C8. A key that the caller's [additional_import_mappings] binds is bound
    to the caller's path in the merged import mappings, also when the
    built-in tables bind it to another path; and a constructor node with
    that key in a built-in namespace gets its class by importing the
    caller's path (after the namespace checks, which reject the bare root
    "langchain" first). *)
Theorem override_shadows_builtin
    (sm : option (gmap string string)) (vn : option (list string)) (sfe : bool)
    (additional : gmap (list string) (list string))
    (environ : gmap string string)
    (node : list (string * value))
    (ns0 : string) (segments : list string) (name : string)
    (path builtin_path : list string) :
  let key := ns0 :: segments ++ [name] in
  let self := Reviver_init sm vn sfe (Some additional) in
  ALL_SERIALIZABLE_MAPPINGS !! key = Some builtin_path →
  additional !! key = Some path →
  import_mappings self !! key = Some path
  ∧ (ns0 ∈ DEFAULT_NAMESPACES →
     resolve_class self (VStr <$> (ns0 :: segments)) (VStr name) = import_by_path path
     ∧ (has_tag node "constructor" = true →
        dict_get node "id" = VList (VStr <$> key) →
        Reviver_call self environ node =
          if bool_decide (segments = [] ∧ ns0 = "langchain") then
            Raise (ValueError_invalid_namespace (VDict node))
          else cls ← import_by_path path; instantiate cls node)).
Proof.
  intros key self _ Hadd. subst key self.
  pose proof (import_mappings_override sm vn sfe additional _ path Hadd) as Hmerged.
  split; [done|]. intros Hns.
  assert (resolve_class (Reviver_init sm vn sfe (Some additional))
            (VStr <$> (ns0 :: segments)) (VStr name)
          = import_by_path path) as Hresolve.
  { by rewrite resolve_class_builtin, Hmerged by done. }
  split; [done|]. intros Htag Hid.
  rewrite Reviver_call_constructor by (done || by rewrite Hid).
  rewrite Hid, revive_constructor_strs by by apply DEFAULT_NAMESPACES_valid.
  by rewrite Hresolve.
Qed.

End constructors.

Lemma bare_root_namespace_rejected_witness :
  Reviver_call (OM:=Demo.model)
    (Reviver_init (MT:=Demo.tables) None (Some ["langchain"; "my_pkg"]) true
       (Some {[ ["langchain"; "PromptTemplate"] := Demo.prompt_path ]}))
    ∅ (Demo.node "constructor" ["langchain"; "PromptTemplate"] [])
  = Raise (ValueError_invalid_namespace
             (VDict (Demo.node "constructor" ["langchain"; "PromptTemplate"] []))).
Proof.
  apply (bare_root_namespace_rejected (MT:=Demo.tables) (OM:=Demo.model)
           None (Some ["langchain"; "my_pkg"]) true
           (Some {[ ["langchain"; "PromptTemplate"] := Demo.prompt_path ]}) ∅
           (Demo.node "constructor" ["langchain"; "PromptTemplate"] [])
           (VStr "PromptTemplate"));
    reflexivity.
Defined.

Lemma single_element_id_raises_IndexError_witness :
  Reviver_call (OM:=Demo.model)
    (Reviver_init (MT:=Demo.tables) None None true None)
    ∅ (Demo.node "constructor" ["langchain"] [])
  = Raise IndexError.
Proof.
  apply (single_element_id_raises_IndexError (OM:=Demo.model)
           (Reviver_init (MT:=Demo.tables) None None true None) ∅
           (Demo.node "constructor" ["langchain"] []) (VStr "langchain"));
    reflexivity.
Defined.

(** C7 as stated fails: the id ["langchain", "Foo"] has its first namespace
    segment in the built-in namespaces and its key has no entry in the
    import mappings, yet the exception is "Invalid namespace" (line 111),
    raised before the lookup of line 118. *)
Lemma builtin_key_without_entry_counterexample :
  "langchain" ∈ DEFAULT_NAMESPACES
  ∧ import_mappings (Reviver_init (MT:=Demo.tables) None None true None)
      !! ["langchain"; "Foo"] = None
  ∧ Reviver_call (OM:=Demo.model)
      (Reviver_init (MT:=Demo.tables) None None true None)
      ∅ (Demo.node "constructor" ["langchain"; "Foo"] [])
    = Raise (ValueError_invalid_namespace
               (VDict (Demo.node "constructor" ["langchain"; "Foo"] [])))
  ∧ Reviver_call (OM:=Demo.model)
      (Reviver_init (MT:=Demo.tables) None None true None)
      ∅ (Demo.node "constructor" ["langchain"; "Foo"] [])
    ≠ Raise (ValueError_cannot_deserialize [VStr "langchain"; VStr "Foo"]).
Proof.
  split; [set_solver|]. split; [by vm_compute|].
  split; [by vm_compute|]. by vm_compute.
Qed.

Lemma builtin_key_without_entry_unsupported_witness :
  Reviver_call (OM:=Demo.model)
    (Reviver_init (MT:=Demo.tables) None None true None)
    ∅ (Demo.node "constructor" ["langchain_core"; "prompts"; "Unknown"] [])
  = Raise (ValueError_cannot_deserialize
             [VStr "langchain_core"; VStr "prompts"; VStr "Unknown"]).
Proof.
  apply (builtin_key_without_entry_unsupported (MT:=Demo.tables) (OM:=Demo.model)
           None None true None ∅
           (Demo.node "constructor" ["langchain_core"; "prompts"; "Unknown"] [])
           "langchain_core" ["prompts"] "Unknown").
  - reflexivity.
  - reflexivity.
  - set_solver.
  - intros [? _]. discriminate.
  - vm_compute. reflexivity.
Defined.

Lemma override_shadows_builtin_witness :
  import_mappings
    (Reviver_init (MT:=Demo.tables) None None true
       (Some {[ Demo.prompt_key := ["my_pkg"; "prompts"; "MyPrompt"] ]}))
    !! Demo.prompt_key
  = Some ["my_pkg"; "prompts"; "MyPrompt"]
  ∧ Reviver_call (OM:=Demo.model)
      (Reviver_init (MT:=Demo.tables) None None true
         (Some {[ Demo.prompt_key := ["my_pkg"; "prompts"; "MyPrompt"] ]}))
      ∅
      (Demo.node "constructor" Demo.prompt_key
         [("kwargs", VDict [("template", VStr "{x}")])])
    = Ok (VObj (Demo.Live "my_pkg.prompts.MyPrompt" [("template", VStr "{x}")])).
Proof.
  destruct (override_shadows_builtin (MT:=Demo.tables) (OM:=Demo.model)
              None None true
              {[ Demo.prompt_key := ["my_pkg"; "prompts"; "MyPrompt"] ]} ∅
              (Demo.node "constructor" Demo.prompt_key
                 [("kwargs", VDict [("template", VStr "{x}")])])
              "langchain" ["prompts"; "prompt"] "PromptTemplate"
              ["my_pkg"; "prompts"; "MyPrompt"] Demo.prompt_path)
    as [Hmerged Hnode].
  - vm_compute. reflexivity.
  - vm_compute. reflexivity.
  - split; [exact Hmerged|].
    destruct Hnode as [_ Hcall]; [set_solver|].
    etrans; [apply Hcall; reflexivity|].
    vm_compute. reflexivity.
Defined.

(** ** The walk *)

Section walker_facts.
Context `{MT : MappingTables} `{OM : ObjectModel}.
#[local] Abbreviation value := (value object).
Variable reviver : Reviver.
Variable environ : gmap string string.

Lemma _load_VDict (d : list (string * value)) :
  _load reviver environ (VDict d) =
    loaded_obj ← load_items reviver environ d;
    Reviver_call reviver environ loaded_obj.
Proof.
  cbn [_load]. f_equal.
  induction d as [|[k v] rest IH]; [done|].
  cbn [load_items]. by rewrite IH.
Qed.

Lemma _load_VList (l : list value) :
  _load reviver environ (VList l) =
    loaded ← load_elements reviver environ l;
    Ok (VList loaded).
Proof.
  cbn [_load]. f_equal.
  induction l as [|o rest IH]; [done|].
  cbn [load_elements]. by rewrite IH.
Qed.

Lemma load_items_Ok (d d' : list (string * value)) :
  load_items reviver environ d = Ok d' ↔ revived reviver environ d d'.
Proof.
  unfold revived. revert d'. induction d as [|[k v] rest IH]; intros d'.
  - cbn. split; [intros [= <-]; constructor | by inversion 1].
  - cbn [load_items]. split.
    + destruct (_load reviver environ v) as [v'|e] eqn:Hv; [|done]. run_bind.
      destruct (load_items reviver environ rest) as [rest'|e] eqn:Hrest; [|done].
      run_bind. intros [= <-]. constructor; [done | by apply IH].
    + inversion 1 as [|[k0 v0] [k' v'] rest0 rest' [Hk Hv] Hrest]; simplify_eq/=.
      rewrite Hv. run_bind. apply IH in Hrest as ->. done.
Qed.

Lemma load_elements_Ok (l l' : list value) :
  load_elements reviver environ l = Ok l'
  ↔ Forall2 (λ o o', _load reviver environ o = Ok o') l l'.
Proof.
  revert l'. induction l as [|o rest IH]; intros l'.
  - cbn. split; [intros [= <-]; constructor | by inversion 1].
  - cbn [load_elements]. split.
    + destruct (_load reviver environ o) as [o'|e] eqn:Ho; [|done]. run_bind.
      destruct (load_elements reviver environ rest) as [rest'|e] eqn:Hrest; [|done].
      run_bind. intros [= <-]. constructor; [done | by apply IH].
    + inversion 1 as [|o0 o' rest0 rest' Ho Hrest]; simplify_eq/=.
      rewrite Ho. run_bind. apply IH in Hrest as ->. done.
Qed.

(** An exception below aborts the comprehension. *)
Lemma load_items_Raise (d : list (string * value)) (k : string) (v : value) (e : exn object) :
  (k, v) ∈ d → _load reviver environ v = Raise e →
  ∃ e', load_items reviver environ d = Raise e'.
Proof.
  intros Hin Hv. induction d as [|[k0 v0] rest IH]; [by apply elem_of_nil in Hin|].
  cbn [load_items]. apply elem_of_cons in Hin as [[= <- <-]|Hin].
  - rewrite Hv. by eexists.
  - destruct (_load reviver environ v0); [|by eexists]. run_bind.
    destruct (IH Hin) as [e' ->]. by eexists.
Qed.

Lemma load_elements_Raise (l : list value) (o : value) (e : exn object) :
  o ∈ l → _load reviver environ o = Raise e →
  ∃ e', load_elements reviver environ l = Raise e'.
Proof.
  intros Hin Ho. induction l as [|o0 rest IH]; [by apply elem_of_nil in Hin|].
  cbn [load_elements]. apply elem_of_cons in Hin as [<-|Hin].
  - rewrite Ho. by eexists.
  - destruct (_load reviver environ o0); [|by eexists]. run_bind.
    destruct (IH Hin) as [e' ->]. by eexists.
Qed.

Lemma revived_keys (d d' : list (string * value)) :
  revived reviver environ d d' → d'.*1 = d.*1.
Proof. induction 1 as [|[??] [??] ?? [??]]; simplify_eq/=; by f_equal. Qed.

Lemma revived_lookup (d d' : list (string * value)) (key : string) :
  revived reviver environ d d' →
  match dict_lookup key d with
  | Some v => ∃ v', dict_lookup key d' = Some v' ∧ _load reviver environ v = Ok v'
  | None => dict_lookup key d' = None
  end.
Proof.
  induction 1 as [|[k v] [k' v'] rest rest' [Hk Hv] _ IH]; [done|].
  simplify_eq/=. destruct (String.eqb k key); [by eexists|done].
Qed.

(** What the Reviver returns is never None. *)
Lemma Reviver_call_not_None (node : list (string * value)) (v : value) :
  Reviver_call reviver environ node = Ok v → v ≠ VNone.
Proof.
  unfold Reviver_call, revive_secret, revive_constructor, instantiate.
  intros Hcall ->. returns_Ok Hcall.
Qed.

Lemma _load_not_None (v v' : value) :
  _load reviver environ v = Ok v' → v ≠ VNone → v' ≠ VNone.
Proof.
  destruct v; try (cbn; by intros [= <-]).
  - rewrite _load_VList. destruct (load_elements _ _ _); by intros [= <-].
  - rewrite _load_VDict. destruct (load_items _ _ _) as [loaded|]; [|done].
    run_bind. intros Hcall _. by eapply Reviver_call_not_None.
Qed.

(** The tests of a branch survive the revival of the fields: [lc] and
    [type] are scalars, and an [id] that is not None stays so. *)
Lemma revived_has_tag (d d' : list (string * value)) (type_ : string) :
  revived reviver environ d d' → has_tag d type_ = true → has_tag d' type_ = true.
Proof.
  intros Hrev [Hlc Hty]%has_tag_true. apply has_tag_true.
  pose proof (revived_lookup d d' "lc" Hrev) as Hlc'.
  pose proof (revived_lookup d d' "type" Hrev) as Hty'.
  unfold dict_get in *. split.
  - destruct (dict_lookup "lc" d) as [lc|]; [|done].
    destruct Hlc' as (lc' & -> & Hload). by destruct lc; simplify_eq/=.
  - destruct (dict_lookup "type" d) as [ty|]; [|done].
    destruct Hty' as (ty' & -> & Hload). by simplify_eq/=.
Qed.

Lemma revived_id_not_None (d d' : list (string * value)) :
  revived reviver environ d d' → dict_get d "id" ≠ VNone → dict_get d' "id" ≠ VNone.
Proof.
  intros Hrev Hid. pose proof (revived_lookup d d' "id" Hrev) as Hid'.
  unfold dict_get in *. destruct (dict_lookup "id" d) as [v|]; [|done].
  destruct Hid' as (v' & -> & Hload). by eapply _load_not_None.
Qed.

Lemma no_lc_1_VDict (d : list (string * value)) :
  no_lc_1 (VDict d)
  = negb (py_eq_1 (dict_get d "lc")) && forallb (λ kv, no_lc_1 kv.2) d.
Proof.
  cbn [no_lc_1]. f_equal.
  induction d as [|[k x] rest IH]; [done|]. cbn [forallb]. by rewrite IH.
Qed.

Lemma no_lc_1_VList (l : list value) :
  no_lc_1 (VList l) = forallb no_lc_1 l.
Proof.
  cbn [no_lc_1].
  induction l as [|x rest IH]; [done|]. cbn [forallb]. by rewrite IH.
Qed.

Lemma no_lc_1_strs (l : list string) :
  no_lc_1 (VList (VStr <$> l) : value) = true.
Proof. rewrite no_lc_1_VList. by induction l. Qed.

(** Without a tagged dict the walk returns its argument. *)
Lemma _load_no_lc_1 (v : value) :
  no_lc_1 v = true → _load reviver environ v = Ok v.
Proof.
  induction v as [| | | | |l IH|d IH|] using value_ind; try done.
  - rewrite no_lc_1_VList, _load_VList. intros Hall.
    assert (load_elements reviver environ l = Ok l) as ->; [|done].
    apply load_elements_Ok. revert Hall.
    induction IH as [|x rest Hx _ IHrest]; [constructor|].
    cbn [forallb]. intros [??]%andb_true_iff.
    constructor; auto.
  - rewrite no_lc_1_VDict, _load_VDict. intros [Hlc Hall]%andb_true_iff.
    assert (load_items reviver environ d = Ok d) as ->.
    { apply load_items_Ok. clear Hlc. revert Hall.
      induction IH as [|[k x] rest Hx _ IHrest]; [constructor|].
      cbn [forallb]. intros [??]%andb_true_iff.
      constructor; [split; auto | by apply IHrest]. }
    run_bind. apply Reviver_call_untagged. by apply negb_true_iff.
Qed.

(** A tree with a failing subtree fails. *)
Lemma _load_Raise_below (t v : value) (e : exn object) :
  occurs_in t v → _load reviver environ t = Raise e →
  ∃ e', _load reviver environ v = Raise e'.
Proof.
  intros Hocc Ht. induction Hocc as [|l x Hin _ [e' IH]|d k x Hin _ [e' IH]].
  - by eexists.
  - rewrite _load_VList.
    destruct (load_elements_Raise l x e' Hin IH) as [e'' ->]. by eexists.
  - rewrite _load_VDict.
    destruct (load_items_Raise d k x e' Hin IH) as [e'' ->]. by eexists.
Qed.

End walker_facts.

Section walker.
Context `{MT : MappingTables} `{OM : ObjectModel}.
#[local] Abbreviation value := (value object).

(** C9. A tree in which no dict has an [lc] field equal to 1 (as the test
    [== 1] of the code decides it) is revived without an exception, and
    the result is the tree itself: the same keys and values in every dict,
    the same elements in the same order in every list, the same scalars. *)
Theorem load_without_lc_1_is_identity
    (obj : value)
    (sm : option (gmap string string)) (vn : option (list string)) (sfe : bool)
    (aim : option (gmap (list string) (list string)))
    (environ : gmap string string) :
  no_lc_1 obj = true →
  load obj sm vn sfe aim environ = Ok obj.
Proof. intros Hobj. unfold load. by apply _load_no_lc_1. Qed.

(** C2. The walk is bottom-up.  A dict: every value is revived first, and
    the Reviver is called on the dict of the revived values under the same
    keys (and on nothing else: if the walk of the dict returns, every value
    has been revived).  So a constructor node is instantiated with its
    revived kwargs: where the kwargs of the input hold a nested secret or
    constructor node, the constructor gets the resolved secret or the live
    object.  A list is revived element by element, in order.  A scalar (and
    a live object) is returned as it is. *)
Theorem walker_revives_bottom_up
    (reviver : Reviver) (environ : gmap string string) :
  (∀ d loaded,
     revived reviver environ d loaded →
     loaded.*1 = d.*1
     ∧ _load reviver environ (VDict d) = Reviver_call reviver environ loaded)
  ∧ (∀ d v,
       _load reviver environ (VDict d) = Ok v →
       ∃ loaded, revived reviver environ d loaded
                 ∧ Reviver_call reviver environ loaded = Ok v)
  ∧ (∀ d loaded kwargs kwargs' ns0 segments name cls,
       revived reviver environ d loaded →
       has_tag d "constructor" = true →
       dict_get d "id" = VList (VStr <$> (ns0 :: segments ++ [name])) →
       dict_lookup "kwargs" d = Some (VDict kwargs) →
       revived reviver environ kwargs kwargs' →
       py_eq_1 (dict_get kwargs' "lc") = false →
       ns0 ∈ valid_namespaces reviver →
       ¬ (segments = [] ∧ ns0 = "langchain") →
       resolve_class reviver (VStr <$> (ns0 :: segments)) (VStr name) = Ok cls →
       issubclass_Serializable cls = Some true →
       _load reviver environ (VDict d) =
         match construct cls kwargs' with
         | Some o => Ok (VObj o)
         | None => Raise ConstructionError
         end)
  ∧ (∀ l loaded,
       _load reviver environ (VList l) = Ok (VList loaded)
       ↔ Forall2 (λ o o', _load reviver environ o = Ok o') l loaded)
  ∧ (∀ v, (∀ l, v ≠ VList l) → (∀ d, v ≠ VDict d) → _load reviver environ v = Ok v).
Proof.
  split; [|split; [|split; [|split]]].
  - intros d loaded Hrev. split; [by eapply revived_keys|].
    apply load_items_Ok in Hrev. by rewrite _load_VDict, Hrev.
  - intros d v. rewrite _load_VDict.
    destruct (load_items reviver environ d) as [loaded|] eqn:Hitems; [|done].
    run_bind. intros Hcall. exists loaded. by rewrite <- load_items_Ok.
  - intros d loaded kwargs kwargs' ns0 segments name cls
      Hrev Htag Hid Hkw Hrevkw Hlc Hvalid Hroot Hcls Hsub.
    pose proof (revived_has_tag _ _ _ _ _ Hrev Htag) as Htag'.
    pose proof (revived_lookup _ _ _ _ "id" Hrev) as Hid'.
    pose proof (revived_lookup _ _ _ _ "kwargs" Hrev) as Hkw'.
    rewrite Hkw in Hkw'. unfold dict_get in Hid.
    destruct (dict_lookup "id" d) as [id_|] eqn:Hidd; [|done].
    change (id_ = VList (VStr <$> ns0 :: segments ++ [name])) in Hid. subst id_.
    destruct Hid' as (id' & Hid' & Hloadid). destruct Hkw' as (kw' & Hkw' & Hloadkw).
    rewrite _load_no_lc_1 in Hloadid by apply no_lc_1_strs.
    rewrite _load_VDict in Hloadkw. apply load_items_Ok in Hrevkw.
    rewrite Hrevkw in Hloadkw. run_bind in Hloadkw.
    rewrite Reviver_call_untagged in Hloadkw by done. simplify_eq.
    apply load_items_Ok in Hrev. rewrite _load_VDict, Hrev. run_bind.
    rewrite Reviver_call_constructor, (dict_get_Some _ _ _ Hid')
      by (done || by rewrite (dict_get_Some _ _ _ Hid')).
    etrans; [exact (revive_constructor_strs reviver loaded ns0 segments name Hvalid)|].
    rewrite bool_decide_false, Hcls by done. run_bind.
    unfold instantiate. by rewrite Hsub, Hkw'.
  - intros l loaded. rewrite _load_VList, <- load_elements_Ok.
    destruct (load_elements reviver environ l); run_bind; [|done].
    split; congruence.
  - intros v Hlist Hdict. destruct v; try done; [by destruct (Hlist items) | by destruct (Hdict items)].
Qed.

(** C4, amended. A dict with [lc] 1, [type] "not_implemented" and an [id]
    that is present and not None makes the Reviver raise the
    NotImplementedError for that node.  In the walk, once the fields of
    the node have been revived, this is what the node raises; and a tree
    in which such a node occurs anywhere never returns a value (the walk
    raises: this exception, or one met earlier). *)
Theorem not_implemented_with_id_never_revives
    (reviver : Reviver) (environ : gmap string string) :
  (∀ node,
     has_tag node "not_implemented" = true → dict_get node "id" ≠ VNone →
     Reviver_call reviver environ node = Raise (NotImplementedError_ (VDict node)))
  ∧ (∀ node loaded,
       has_tag node "not_implemented" = true → dict_get node "id" ≠ VNone →
       revived reviver environ node loaded →
       _load reviver environ (VDict node) = Raise (NotImplementedError_ (VDict loaded)))
  ∧ (∀ node obj,
       has_tag node "not_implemented" = true → dict_get node "id" ≠ VNone →
       occurs_in (VDict node) obj →
       ∃ e, _load reviver environ obj = Raise e).
Proof.
  assert (∀ node loaded,
            has_tag node "not_implemented" = true → dict_get node "id" ≠ VNone →
            revived reviver environ node loaded →
            _load reviver environ (VDict node)
            = Raise (NotImplementedError_ (VDict loaded))) as Hnode.
  { intros node loaded Htag Hid Hrev.
    pose proof (revived_has_tag _ _ _ _ _ Hrev Htag).
    pose proof (revived_id_not_None _ _ _ _ Hrev Hid).
    apply load_items_Ok in Hrev. rewrite _load_VDict, Hrev. run_bind.
    by apply Reviver_call_not_implemented. }
  split; [|split; [done|]].
  - intros node Htag Hid. by apply Reviver_call_not_implemented.
  - intros node obj Htag Hid Hocc.
    destruct (load_items reviver environ node) as [loaded|e] eqn:Hitems.
    + apply load_items_Ok in Hitems.
      eapply _load_Raise_below; [done|]. by apply Hnode.
    + eapply _load_Raise_below; [done|]. by rewrite _load_VDict, Hitems.
Qed.

End walker.

Lemma load_without_lc_1_is_identity_witness :
  load (MT:=Demo.tables) (OM:=Demo.model)
    (VDict [("name", VStr "chain"); ("lc", VInt 2);
            ("steps", VList [VInt 1; VNone; VDict [("type", VStr "secret"); ("id", VList [VStr "K"])]])])
    None None true None ∅
  = Ok (VDict [("name", VStr "chain"); ("lc", VInt 2);
               ("steps", VList [VInt 1; VNone; VDict [("type", VStr "secret"); ("id", VList [VStr "K"])]])]).
Proof.
  apply (load_without_lc_1_is_identity (MT:=Demo.tables) (OM:=Demo.model)
           (VDict [("name", VStr "chain"); ("lc", VInt 2);
                   ("steps", VList [VInt 1; VNone; VDict [("type", VStr "secret"); ("id", VList [VStr "K"])]])])
           None None true None ∅).
  reflexivity.
Defined.

Lemma walker_revives_bottom_up_witness :
  _load (OM:=Demo.model)
    (Reviver_init (MT:=Demo.tables) (Some {[ "API_KEY" := "s3cret" ]})
       (Some ["my_pkg"]) false None)
    ∅
    (VDict (Demo.node "constructor" ["my_pkg"; "llms"; "FakeLLM"]
       [("kwargs", VDict
           [("api_key", VDict (Demo.node "secret" ["API_KEY"] []));
            ("prompt", VDict (Demo.node "constructor" Demo.prompt_key
                                [("kwargs", VDict [("template", VStr "{x}")])]))])]))
  = Ok (VObj (Demo.Live "my_pkg.llms.FakeLLM"
         [("api_key", VStr "s3cret");
          ("prompt", VObj (Demo.Live "langchain_core.prompts.prompt.PromptTemplate"
                             [("template", VStr "{x}")]))])).
Proof.
  etrans.
  - apply (proj1 (proj2 (proj2
             (walker_revives_bottom_up (OM:=Demo.model)
                (Reviver_init (MT:=Demo.tables) (Some {[ "API_KEY" := "s3cret" ]})
                   (Some ["my_pkg"]) false None) ∅)))
           _
           (Demo.node "constructor" ["my_pkg"; "llms"; "FakeLLM"]
              [("kwargs", VDict
                  [("api_key", VStr "s3cret");
                   ("prompt", VObj (Demo.Live "langchain_core.prompts.prompt.PromptTemplate"
                                      [("template", VStr "{x}")]))])])
           [("api_key", VDict (Demo.node "secret" ["API_KEY"] []));
            ("prompt", VDict (Demo.node "constructor" Demo.prompt_key
                                [("kwargs", VDict [("template", VStr "{x}")])]))]
           [("api_key", VStr "s3cret");
            ("prompt", VObj (Demo.Live "langchain_core.prompts.prompt.PromptTemplate"
                               [("template", VStr "{x}")]))]
           "my_pkg" ["llms"] "FakeLLM" "my_pkg.llms.FakeLLM").
    + apply load_items_Ok. vm_compute. reflexivity.
    + reflexivity.
    + reflexivity.
    + reflexivity.
    + apply load_items_Ok. vm_compute. reflexivity.
    + reflexivity.
    + vm_compute. set_solver.
    + intros [? _]. discriminate.
    + vm_compute. reflexivity.
    + reflexivity.
  - reflexivity.
Defined.

(** C4 as stated fails: a dict with [lc] 1 and [type] "not_implemented" but
    no [id] is passed through, here below a list. *)
Lemma not_implemented_without_id_counterexample :
  has_tag (object:=Demo.instance)
    [("lc", VInt 1); ("type", VStr "not_implemented"); ("repr", VStr "<lambda>")]
    "not_implemented" = true
  ∧ load (MT:=Demo.tables) (OM:=Demo.model)
      (VList [VDict [("lc", VInt 1); ("type", VStr "not_implemented");
                     ("repr", VStr "<lambda>")]])
      None None true None ∅
    = Ok (VList [VDict [("lc", VInt 1); ("type", VStr "not_implemented");
                        ("repr", VStr "<lambda>")]]).
Proof. split; by vm_compute. Qed.

Lemma not_implemented_with_id_never_revives_witness :
  _load (OM:=Demo.model) (Reviver_init (MT:=Demo.tables) None None true None) ∅
    (VDict (Demo.node "not_implemented" ["my_pkg"; "Opaque"] [("repr", VStr "<lambda>")]))
  = Raise (NotImplementedError_
             (VDict (Demo.node "not_implemented" ["my_pkg"; "Opaque"]
                       [("repr", VStr "<lambda>")])))
  ∧ ∃ e,
      _load (OM:=Demo.model) (Reviver_init (MT:=Demo.tables) None None true None) ∅
        (VList [VInt 0;
                VDict [("steps",
                        VList [VDict (Demo.node "not_implemented" ["my_pkg"; "Opaque"]
                                        [("repr", VStr "<lambda>")])])]])
      = Raise e.
Proof.
  destruct (not_implemented_with_id_never_revives (OM:=Demo.model)
              (Reviver_init (MT:=Demo.tables) None None true None) ∅)
    as (_ & Hnode & Htree).
  split.
  - apply Hnode; [reflexivity | discriminate |].
    apply load_items_Ok. vm_compute. reflexivity.
  - apply (Htree (Demo.node "not_implemented" ["my_pkg"; "Opaque"]
                    [("repr", VStr "<lambda>")]));
      [reflexivity | discriminate |].
    eapply occurs_in_list; [apply list_elem_of_further, list_elem_of_here|].
    eapply occurs_in_dict; [apply list_elem_of_here|].
    eapply occurs_in_list; [apply list_elem_of_here|].
    apply occurs_here.
Defined.

(** * Further properties of the code *)

(** ** [Reviver.__init__] *)

Section init_facts.
Context `{MT : MappingTables} `{OM : ObjectModel}.
#[local] Abbreviation value := (value object).

Lemma valid_namespaces_allowed
    (sm : option (gmap string string)) (vn : option (list string)) (sfe : bool)
    (aim : option (gmap (list string) (list string))) (s : string) :
  s ∈ valid_namespaces (Reviver_init sm vn sfe aim)
  ↔ s ∈ DEFAULT_NAMESPACES ∨ s ∈ default [] vn.
Proof.
  unfold Reviver_init. cbn [valid_namespaces].
  destruct vn as [[|x extra]|]; cbn [default from_option id].
  - split; [by left | intros [?|Hnil]; [done | by apply elem_of_nil in Hnil]].
  - apply elem_of_app.
  - split; [by left | intros [?|Hnil]; [done | by apply elem_of_nil in Hnil]].
Qed.

(** X1. The allowed namespaces of a Reviver are the six defaults and what
    the caller passes as [valid_namespaces], nothing else: the caller can
    add namespaces and cannot take a default away. *)
Theorem valid_namespaces_are_defaults_and_extras
    (sm : option (gmap string string)) (vn : option (list string)) (sfe : bool)
    (aim : option (gmap (list string) (list string))) (s : string) :
  s ∈ valid_namespaces (Reviver_init sm vn sfe aim)
  ↔ s ∈ DEFAULT_NAMESPACES ∨ s ∈ default [] vn.
Proof. apply valid_namespaces_allowed. Qed.

(** X2. The import path of a key is taken from the first of these that
    binds it: the caller's [additional_import_mappings], then
    [_JS_SERIALIZABLE_MAPPING], [_OG_SERIALIZABLE_MAPPING],
    [OLD_CORE_NAMESPACES_MAPPING], [SERIALIZABLE_MAPPING].  ([∪] on options
    keeps its left argument when that is a [Some].) *)
Theorem import_mappings_precedence
    (sm : option (gmap string string)) (vn : option (list string)) (sfe : bool)
    (aim : option (gmap (list string) (list string))) (key : list string) :
  import_mappings (Reviver_init sm vn sfe aim) !! key
  = default ∅ aim !! key
    ∪ (_JS_SERIALIZABLE_MAPPING !! key
       ∪ (_OG_SERIALIZABLE_MAPPING !! key
          ∪ (OLD_CORE_NAMESPACES_MAPPING !! key ∪ SERIALIZABLE_MAPPING !! key))).
Proof.
  unfold Reviver_init. cbn [import_mappings].
  assert (ALL_SERIALIZABLE_MAPPINGS !! key
          = _JS_SERIALIZABLE_MAPPING !! key
            ∪ (_OG_SERIALIZABLE_MAPPING !! key
               ∪ (OLD_CORE_NAMESPACES_MAPPING !! key ∪ SERIALIZABLE_MAPPING !! key)))
    as <-.
  { unfold ALL_SERIALIZABLE_MAPPINGS, dict_merge. by rewrite !lookup_union. }
  destruct (decide (default ∅ aim = ∅)) as [->|_].
  - rewrite lookup_empty. by destruct (ALL_SERIALIZABLE_MAPPINGS !! key).
  - unfold dict_merge. by rewrite lookup_union.
Qed.

End init_facts.

(** ** More on constructor nodes *)

Section constructor_facts.
Context `{MT : MappingTables} `{OM : ObjectModel}.
#[local] Abbreviation value := (value object).

Lemma dot_join_strs (l : list string) :
  dot_join ((VStr <$> l) : list value) = Ok (String.concat "." l).
Proof. unfold dot_join. by rewrite mapM_as_str_VStr. Qed.

Lemma not_default_not_bare_root (ns0 : string) (segments : list string) :
  ns0 ∉ DEFAULT_NAMESPACES → (¬ (segments = [] ∧ ns0 = "langchain")).
Proof. intros Hns [_ ->]. apply Hns. set_solver. Qed.

(** The class of a key outside the built-in namespaces (lines 132-139). *)
Lemma resolve_class_custom (self : Reviver)
    (ns0 : string) (segments : list string) (name : string) :
  ns0 ∉ DEFAULT_NAMESPACES →
  resolve_class self (VStr <$> (ns0 :: segments)) (VStr name) =
    match additional_import_mappings self !! (ns0 :: segments ++ [name]) with
    | Some _ =>
        match import_mappings self !! (ns0 :: segments ++ [name]) with
        | None => Raise KeyError
        | Some import_path =>
            let dotted := String.concat "." (removelast import_path) in
            match import_module dotted with
            | None => Raise (ImportError dotted)
            | Some mod_ =>
                attr ← last_item import_path;
                match getattr mod_ attr with
                | None => Raise (AttributeError attr)
                | Some cls => Ok cls
                end
            end
        end
    | None =>
        let dotted := String.concat "." (ns0 :: segments) in
        match import_module dotted with
        | None => Raise (ImportError dotted)
        | Some mod_ =>
            match getattr mod_ name with
            | None => Raise (AttributeError name)
            | Some cls => Ok cls
            end
        end
    end.
Proof.
  intros Hns. unfold resolve_class.
  rewrite <- id_strs_split, !tuple_dict_find_strs, dot_join_strs.
  rewrite (fmap_cons VStr ns0 segments) at 1.
  cbn [first_item]. run_bind.
  rewrite py_in_strs_VStr, bool_decide_false by done. run_bind.
  destruct (additional_import_mappings self !! _); run_bind.
  - destruct (import_mappings self !! _) as [import_path|]; [|done].
    cbn zeta. destruct (import_module _); [|done].
    by destruct (last_item import_path).
  - cbn zeta. by destruct (import_module _).
Qed.

(** X3. A constructor node whose first namespace segment is not an allowed
    namespace (it is a str that is neither a default nor one the caller
    added, or it is not a str at all) raises the ValueError "Invalid
    namespace", whatever the rest of the id, the import mappings and the
    object model are. *)
Theorem namespace_not_allowed_rejected
    (sm : option (gmap string string)) (vn : option (list string)) (sfe : bool)
    (aim : option (gmap (list string) (list string)))
    (environ : gmap string string)
    (node : list (string * value)) (ns0 : value) (rest : list value) (name : value) :
  has_tag node "constructor" = true →
  dict_get node "id" = VList (ns0 :: rest ++ [name]) →
  (∀ s, ns0 = VStr s → (s ∉ DEFAULT_NAMESPACES) ∧ (s ∉ default [] vn)) →
  Reviver_call (Reviver_init sm vn sfe aim) environ node
  = Raise (ValueError_invalid_namespace (VDict node)).
Proof.
  intros Htag Hid Hns0.
  rewrite Reviver_call_constructor by (done || by rewrite Hid).
  rewrite Hid. unfold revive_constructor. cbn [py_iter]. run_bind.
  rewrite (app_comm_cons rest [name] ns0), unpack_star_last_snoc. run_bind.
  cbn [first_item]. run_bind.
  assert (py_in_strs ns0 (valid_namespaces (Reviver_init sm vn sfe aim)) = false) as ->;
    [|done].
  destruct ns0 as [| | | |s| | |]; try done.
  rewrite py_in_strs_VStr. apply bool_decide_false.
  rewrite valid_namespaces_allowed. destruct (Hns0 s eq_refl). tauto.
Qed.

(** X4. A constructor node in a namespace the caller added (not a built-in
    one), whose key the caller did not override, is loaded by its own path:
    the module is the dotted namespace and the class is the attribute named
    by the last segment of the id. *)
Theorem custom_namespace_loaded_by_path
    (sm : option (gmap string string)) (vn : option (list string)) (sfe : bool)
    (aim : option (gmap (list string) (list string)))
    (environ : gmap string string)
    (node : list (string * value))
    (ns0 : string) (segments : list string) (name : string) :
  has_tag node "constructor" = true →
  dict_get node "id" = VList (VStr <$> (ns0 :: segments ++ [name])) →
  ns0 ∉ DEFAULT_NAMESPACES →
  ns0 ∈ default [] vn →
  default ∅ aim !! (ns0 :: segments ++ [name]) = None →
  Reviver_call (Reviver_init sm vn sfe aim) environ node =
    match import_module (String.concat "." (ns0 :: segments)) with
    | None => Raise (ImportError (String.concat "." (ns0 :: segments)))
    | Some mod_ =>
        match getattr mod_ name with
        | None => Raise (AttributeError name)
        | Some cls => instantiate cls node
        end
    end.
Proof.
  intros Htag Hid Hns Hvn Hadd.
  rewrite Reviver_call_constructor by (done || by rewrite Hid).
  rewrite Hid, revive_constructor_strs
    by (apply valid_namespaces_allowed; by right).
  rewrite bool_decide_false by by apply not_default_not_bare_root.
  rewrite resolve_class_custom by done.
  cbn [additional_import_mappings Reviver_init]. rewrite Hadd. cbn zeta.
  destruct (import_module _); [|done]. by destruct (getattr _ _).
Qed.

(** X5. A constructor node in a namespace the caller added whose key the
    caller overrides in [additional_import_mappings] is loaded from the
    override: the module is the dotted path without its last segment, the
    class is the attribute named by the last segment, and the path of the
    id itself is not imported.  The subscript of line 134 finds the key. *)
Theorem custom_namespace_override_used
    (sm : option (gmap string string)) (vn : option (list string)) (sfe : bool)
    (aim : option (gmap (list string) (list string)))
    (environ : gmap string string)
    (node : list (string * value))
    (ns0 : string) (segments : list string) (name : string)
    (import_dir : list string) (import_obj : string) :
  has_tag node "constructor" = true →
  dict_get node "id" = VList (VStr <$> (ns0 :: segments ++ [name])) →
  ns0 ∉ DEFAULT_NAMESPACES →
  ns0 ∈ default [] vn →
  default ∅ aim !! (ns0 :: segments ++ [name]) = Some (import_dir ++ [import_obj]) →
  Reviver_call (Reviver_init sm vn sfe aim) environ node =
    match import_module (String.concat "." import_dir) with
    | None => Raise (ImportError (String.concat "." import_dir))
    | Some mod_ =>
        match getattr mod_ import_obj with
        | None => Raise (AttributeError import_obj)
        | Some cls => instantiate cls node
        end
    end.
Proof.
  intros Htag Hid Hns Hvn Hadd.
  destruct aim as [additional|]; cbn [default from_option id] in Hadd;
    [|by rewrite lookup_empty in Hadd].
  rewrite Reviver_call_constructor by (done || by rewrite Hid).
  rewrite Hid, revive_constructor_strs
    by (apply valid_namespaces_allowed; by right).
  rewrite bool_decide_false by by apply not_default_not_bare_root.
  rewrite resolve_class_custom by done.
  rewrite (import_mappings_override _ _ _ _ _ _ Hadd).
  cbn [additional_import_mappings Reviver_init default from_option id].
  rewrite Hadd. cbn zeta. rewrite removelast_last.
  destruct (import_module _); [|done].
  unfold last_item. rewrite last_snoc. run_bind. by destruct (getattr _ _).
Qed.

(** X6. A constructor node in a built-in namespace whose key has an entry
    in the import mappings is loaded from that entry: the module is the
    dotted import path without its last segment, the class is the attribute
    named by the last segment.  The path of the id itself is never
    imported. *)
Theorem builtin_key_loaded_from_mapping
    (sm : option (gmap string string)) (vn : option (list string)) (sfe : bool)
    (aim : option (gmap (list string) (list string)))
    (environ : gmap string string)
    (node : list (string * value))
    (ns0 : string) (segments : list string) (name : string)
    (import_dir : list string) (import_obj : string) :
  has_tag node "constructor" = true →
  dict_get node "id" = VList (VStr <$> (ns0 :: segments ++ [name])) →
  ns0 ∈ DEFAULT_NAMESPACES →
  ¬ (segments = [] ∧ ns0 = "langchain") →
  import_mappings (Reviver_init sm vn sfe aim) !! (ns0 :: segments ++ [name])
    = Some (import_dir ++ [import_obj]) →
  Reviver_call (Reviver_init sm vn sfe aim) environ node =
    match import_module (String.concat "." import_dir) with
    | None => Raise (ImportError (String.concat "." import_dir))
    | Some mod_ =>
        match getattr mod_ import_obj with
        | None => Raise (AttributeError import_obj)
        | Some cls => instantiate cls node
        end
    end.
Proof.
  intros Htag Hid Hns Hroot Hkey.
  rewrite Reviver_call_constructor by (done || by rewrite Hid).
  rewrite Hid, revive_constructor_strs by by apply DEFAULT_NAMESPACES_valid.
  rewrite bool_decide_false by done.
  rewrite resolve_class_builtin, Hkey by done.
  unfold import_by_path, last_item. rewrite last_snoc, removelast_last. run_bind.
  destruct (import_module _); [|done]. by destruct (getattr _ _).
Qed.

End constructor_facts.

(** ** The subclass check, the keyword arguments, the shape of a secret id *)

Section instantiate_facts.
Context `{MT : MappingTables} `{OM : ObjectModel}.
#[local] Abbreviation value := (value object).

(** Once the class is found the node is instantiated (line 141 on). *)
Lemma Reviver_call_resolved (self : Reviver) (environ : gmap string string)
    (node : list (string * value))
    (ns0 : string) (segments : list string) (name : string) (cls : pyattr) :
  has_tag node "constructor" = true →
  dict_get node "id" = VList (VStr <$> (ns0 :: segments ++ [name])) →
  ns0 ∈ valid_namespaces self →
  ¬ (segments = [] ∧ ns0 = "langchain") →
  resolve_class self (VStr <$> (ns0 :: segments)) (VStr name) = Ok cls →
  Reviver_call self environ node = instantiate cls node.
Proof.
  intros Htag Hid Hvalid Hroot Hcls.
  rewrite Reviver_call_constructor by (done || by rewrite Hid).
  by rewrite Hid, revive_constructor_strs, bool_decide_false, Hcls by done.
Qed.

(** X7. A class that is found but is not a subclass of Serializable is
    never called: the node raises the ValueError "Invalid namespace",
    whatever its kwargs are. *)
Theorem class_not_Serializable_rejected
    (self : Reviver) (environ : gmap string string)
    (node : list (string * value))
    (ns0 : string) (segments : list string) (name : string) (cls : pyattr) :
  has_tag node "constructor" = true →
  dict_get node "id" = VList (VStr <$> (ns0 :: segments ++ [name])) →
  ns0 ∈ valid_namespaces self →
  ¬ (segments = [] ∧ ns0 = "langchain") →
  resolve_class self (VStr <$> (ns0 :: segments)) (VStr name) = Ok cls →
  issubclass_Serializable cls = Some false →
  Reviver_call self environ node = Raise (ValueError_invalid_namespace (VDict node)).
Proof.
  intros Htag Hid Hvalid Hroot Hcls Hsub.
  rewrite (Reviver_call_resolved _ _ _ _ _ _ _ Htag Hid Hvalid Hroot Hcls).
  unfold instantiate. by rewrite Hsub.
Qed.

(** X8. The keyword arguments of a constructor node: without a [kwargs]
    field the class is called with no argument; with [kwargs] null the
    default of [value.get("kwargs", dict())] is not used and unpacking None
    raises TypeError, the class is not called. *)
Theorem kwargs_absent_or_null
    (self : Reviver) (environ : gmap string string)
    (node : list (string * value))
    (ns0 : string) (segments : list string) (name : string) (cls : pyattr) :
  has_tag node "constructor" = true →
  dict_get node "id" = VList (VStr <$> (ns0 :: segments ++ [name])) →
  ns0 ∈ valid_namespaces self →
  ¬ (segments = [] ∧ ns0 = "langchain") →
  resolve_class self (VStr <$> (ns0 :: segments)) (VStr name) = Ok cls →
  issubclass_Serializable cls = Some true →
  (dict_lookup "kwargs" node = None →
   Reviver_call self environ node =
     match construct cls [] with
     | Some o => Ok (VObj o)
     | None => Raise ConstructionError
     end)
  ∧ (dict_lookup "kwargs" node = Some VNone →
     Reviver_call self environ node = Raise TypeError).
Proof.
  intros Htag Hid Hvalid Hroot Hcls Hsub.
  rewrite (Reviver_call_resolved _ _ _ _ _ _ _ Htag Hid Hvalid Hroot Hcls).
  unfold instantiate. rewrite Hsub. by split; intros ->.
Qed.

(** X9. A secret node whose id is a list that does not have exactly one
    element raises the ValueError of the unpacking [[key] = value["id"]],
    whatever the secrets map and the environment hold. *)
Theorem secret_id_must_have_one_element
    (self : Reviver) (environ : gmap string string)
    (node : list (string * value)) (keys : list value) :
  has_tag node "secret" = true →
  dict_get node "id" = VList keys →
  length keys ≠ 1 →
  Reviver_call self environ node = Raise ValueError_unpack.
Proof.
  intros Htag Hid Hlen.
  rewrite Reviver_call_secret by (done || by rewrite Hid).
  rewrite Hid. unfold revive_secret. cbn [py_iter]. run_bind.
  by destruct keys as [|k [|k' keys]].
Qed.

(** What the Reviver returns: the str of a secret node, the live object of
    a constructor node, or its argument. *)
Lemma Reviver_call_Ok_cases (self : Reviver) (environ : gmap string string)
    (node : list (string * value)) (v : value) :
  Reviver_call self environ node = Ok v →
  (has_tag node "secret" = true ∧ ∃ s, v = VStr s)
  ∨ (has_tag node "constructor" = true ∧ ∃ o, v = VObj o)
  ∨ v = VDict node.
Proof.
  unfold Reviver_call, has_tag.
  destruct (py_eq_1 (dict_get node "lc")); cbn [andb]; [|intros [= <-]; auto].
  destruct (py_eq_str (dict_get node "type") "secret") eqn:Hsecret; cbn [andb].
  { destruct (is_not_None (dict_get node "id")).
    - unfold revive_secret. intros Hcall. left. split; [done|].
      returns_Ok Hcall; simplify_eq; eauto.
    - apply py_eq_str_true in Hsecret as ->. cbn. intros [= <-]. auto. }
  destruct (py_eq_str (dict_get node "type") "not_implemented"); cbn [andb].
  { destruct (is_not_None (dict_get node "id")); [done|].
    destruct (py_eq_str (dict_get node "type") "constructor"); intros [= <-]; auto. }
  destruct (py_eq_str (dict_get node "type") "constructor"); cbn [andb];
    [|intros [= <-]; auto].
  destruct (is_not_None (dict_get node "id")); [|intros [= <-]; auto].
  unfold revive_constructor, instantiate. intros Hcall. right. left. split; [done|].
  returns_Ok Hcall; simplify_eq; eauto.
Qed.

(** X10. When the Reviver returns, it returns the str of a secret node,
    the live object of a constructor node, or the dict it was given,
    unchanged: it never returns another dict, a list, a number or None. *)
Theorem Reviver_returns_secret_object_or_argument
    (self : Reviver) (environ : gmap string string)
    (node : list (string * value)) (v : value) :
  Reviver_call self environ node = Ok v →
  (has_tag node "secret" = true ∧ ∃ s, v = VStr s)
  ∨ (has_tag node "constructor" = true ∧ ∃ o, v = VObj o)
  ∨ v = VDict node.
Proof. apply Reviver_call_Ok_cases. Qed.

End instantiate_facts.

(** ** More on the walk *)

Section walk_facts.
Context `{MT : MappingTables} `{OM : ObjectModel}.
#[local] Abbreviation value := (value object).

Lemma load_items_first_Raise (reviver : Reviver) (environ : gmap string string)
    (d1 d1' : list (string * value)) (k : string) (v : value)
    (d2 : list (string * value)) (e : exn object) :
  revived reviver environ d1 d1' →
  _load reviver environ v = Raise e →
  load_items reviver environ (d1 ++ (k, v) :: d2) = Raise e.
Proof.
  intros Hrev Hv.
  induction Hrev as [|[k1 v1] [k1' v1'] rest rest' [_ Hv1] _ IH]; cbn [app load_items].
  - by rewrite Hv.
  - cbn in Hv1. by rewrite Hv1, IH.
Qed.

Lemma load_elements_first_Raise (reviver : Reviver) (environ : gmap string string)
    (l1 l1' : list value) (o : value) (l2 : list value) (e : exn object) :
  Forall2 (λ x x', _load reviver environ x = Ok x') l1 l1' →
  _load reviver environ o = Raise e →
  load_elements reviver environ (l1 ++ o :: l2) = Raise e.
Proof.
  intros Hrev Ho.
  induction Hrev as [|x x' rest rest' Hx _ IH]; cbn [app load_elements].
  - by rewrite Ho.
  - by rewrite Hx, IH.
Qed.

(** X11. The walk stops at the first exception, in the order of the items
    of a dict (of the elements of a list): when the items before one have
    been revived and that one raises, the walk of the container raises the
    same exception; the items after it are not looked at and the Reviver
    is not called on the dict. *)
Theorem first_exception_aborts_the_walk
    (reviver : Reviver) (environ : gmap string string) :
  (∀ d1 d1' k v d2 e,
     revived reviver environ d1 d1' →
     _load reviver environ v = Raise e →
     _load reviver environ (VDict (d1 ++ (k, v) :: d2)) = Raise e)
  ∧ (∀ l1 l1' o l2 e,
       Forall2 (λ x x', _load reviver environ x = Ok x') l1 l1' →
       _load reviver environ o = Raise e →
       _load reviver environ (VList (l1 ++ o :: l2)) = Raise e).
Proof.
  split.
  - intros d1 d1' k v d2 e Hrev Hv.
    by rewrite _load_VDict, (load_items_first_Raise _ _ _ _ _ _ _ _ Hrev Hv).
  - intros l1 l1' o l2 e Hrev Ho.
    by rewrite _load_VList, (load_elements_first_Raise _ _ _ _ _ _ _ Hrev Ho).
Qed.

Lemma _load_fixed_point (reviver : Reviver) (environ : gmap string string)
    (v v' : value) :
  _load reviver environ v = Ok v' → _load reviver environ v' = Ok v'.
Proof.
  revert v'.
  induction v as [| | | | |l IH|d IH|] using value_ind; intros v';
    try (cbn; by intros [= <-]).
  - rewrite _load_VList.
    destruct (load_elements reviver environ l) as [l'|] eqn:Hl; [|done].
    run_bind. intros [= <-]. apply load_elements_Ok in Hl.
    rewrite _load_VList.
    assert (load_elements reviver environ l' = Ok l') as ->; [|done].
    apply load_elements_Ok.
    induction Hl as [|x x' rest rest' Hx _ IHrest]; [constructor|].
    apply Forall_cons in IH as [IHx IHrest'].
    constructor; [by apply IHx | by apply IHrest].
  - rewrite _load_VDict.
    destruct (load_items reviver environ d) as [d'|] eqn:Hd; [|done].
    run_bind. intros Hcall. apply load_items_Ok in Hd.
    destruct (Reviver_call_Ok_cases _ _ _ _ Hcall)
      as [[_ [s ->]] | [[_ [o ->]] | ->]]; [done..|].
    rewrite _load_VDict.
    assert (load_items reviver environ d' = Ok d') as ->; [|done].
    apply load_items_Ok. clear Hcall.
    induction Hd as [|[k x] [k' x'] rest rest' [Hk Hx] _ IHrest]; [constructor|].
    apply Forall_cons in IH as [IHx IHrest'].
    constructor; [split; [done | by apply IHx] | by apply IHrest].
Qed.

(** X12. Reviving twice is reviving once: what [load] returns is a tree
    that [load], called with the same arguments and environment, returns
    unchanged.  (A secret has become a str, a constructor node a live
    object, and a dict the Reviver passed through is passed through
    again.) *)
Theorem load_is_idempotent
    (obj v : value)
    (sm : option (gmap string string)) (vn : option (list string)) (sfe : bool)
    (aim : option (gmap (list string) (list string)))
    (environ : gmap string string) :
  load obj sm vn sfe aim environ = Ok v →
  load v sm vn sfe aim environ = Ok v.
Proof. unfold load. apply _load_fixed_point. Qed.




End walk_facts.

(** ** Where a live object can come from *)

Section allowlist.
Context `{MT : MappingTables} `{OM : ObjectModel}.
#[local] Abbreviation value := (value object).

(** X14. The Reviver returns a live object only for a constructor node
    whose first namespace segment is a str in the allowed namespaces, and
    the object is the result of calling a class that [resolve_class] found
    for the id and that passed the subclass check: no object is built for a
    namespace outside the allowlist or from a class that is not a
    Serializable. *)
Theorem live_object_only_from_allowed_Serializable
    (self : Reviver) (environ : gmap string string)
    (node : list (string * value)) (o : object) :
  Reviver_call self environ node = Ok (VObj o) →
  has_tag node "constructor" = true
  ∧ ∃ (s : string) (rest : list value) (name : value) (cls : pyattr)
      (kwargs : list (string * value)),
      (it ← py_iter (dict_get node "id"); unpack_star_last it)
        = Ok (VStr s :: rest, name)
      ∧ s ∈ valid_namespaces self
      ∧ resolve_class self (VStr s :: rest) name = Ok cls
      ∧ issubclass_Serializable cls = Some true
      ∧ construct cls kwargs = Some o.
Proof.
  intros Hcall.
  destruct (Reviver_call_Ok_cases _ _ _ _ Hcall)
    as [[_ [s ?]] | [[Htag _] | ?]]; [done| |done].
  split; [done|].
  assert (dict_get node "id" ≠ VNone) as Hid.
  { intros Hnone. unfold Reviver_call in Hcall. rewrite Hnone in Hcall.
    cbn in Hcall. by rewrite !andb_false_r in Hcall. }
  rewrite Reviver_call_constructor in Hcall by done.
  unfold revive_constructor in Hcall.
  destruct (py_iter (dict_get node "id")) as [it|] eqn:Hit; [|done].
  run_bind in Hcall. run_bind.
  destruct (unpack_star_last it) as [[namespace name]|] eqn:Hunpack; [|done].
  run_bind in Hcall.
  destruct namespace as [|ns0 rest]; [done|].
  cbn [first_item] in Hcall. run_bind in Hcall.
  destruct ns0 as [| | | |s| | |]; try done.
  rewrite py_in_strs_VStr in Hcall.
  destruct (bool_decide (s ∈ valid_namespaces self)) eqn:Hvalid; [|done].
  apply bool_decide_eq_true in Hvalid. cbn [negb] in Hcall.
  destruct (_ && _) in Hcall; [done|].
  destruct (resolve_class self (VStr s :: rest) name) as [cls|] eqn:Hcls; [|done].
  run_bind in Hcall. unfold instantiate in Hcall.
  destruct (issubclass_Serializable cls) as [[|]|] eqn:Hsub; [|done..].
  destruct (default (VDict []) (dict_lookup "kwargs" node)) as [| | | | | |kwargs|];
    try done.
  destruct (construct cls kwargs) as [o'|] eqn:Hnew; [|done].
  injection Hcall as ->.
  by exists s, rest, name, cls, kwargs.
Qed.

End allowlist.

(** ** The further properties on the small instance *)

Lemma namespace_not_allowed_rejected_witness :
  Reviver_call (OM:=Demo.model)
    (Reviver_init (MT:=Demo.tables) None (Some ["my_pkg"]) true
       (Some {[ ["unknown_ns"; "Foo"] := Demo.prompt_path ]}))
    ∅ (Demo.node "constructor" ["unknown_ns"; "Foo"] [])
  = Raise (ValueError_invalid_namespace
             (VDict (Demo.node "constructor" ["unknown_ns"; "Foo"] []))).
Proof.
  apply (namespace_not_allowed_rejected (MT:=Demo.tables) (OM:=Demo.model)
           None (Some ["my_pkg"]) true
           (Some {[ ["unknown_ns"; "Foo"] := Demo.prompt_path ]}) ∅
           (Demo.node "constructor" ["unknown_ns"; "Foo"] [])
           (VStr "unknown_ns") [] (VStr "Foo")).
  - reflexivity.
  - reflexivity.
  - intros s [= <-]. split; cbn; by apply (bool_decide_unpack _).
Defined.

Lemma custom_namespace_loaded_by_path_witness :
  Reviver_call (OM:=Demo.model)
    (Reviver_init (MT:=Demo.tables) None (Some ["my_pkg"]) true None)
    ∅ (Demo.node "constructor" ["my_pkg"; "tools"; "Foo"] [])
  = Ok (VObj (Demo.Live "my_pkg.tools.Foo" [])).
Proof.
  etrans.
  - apply (custom_namespace_loaded_by_path (MT:=Demo.tables) (OM:=Demo.model)
             None (Some ["my_pkg"]) true None ∅
             (Demo.node "constructor" ["my_pkg"; "tools"; "Foo"] [])
             "my_pkg" ["tools"] "Foo").
    + reflexivity.
    + reflexivity.
    + by apply (bool_decide_unpack _).
    + cbn. set_solver.
    + reflexivity.
  - reflexivity.
Defined.

Lemma custom_namespace_override_used_witness :
  Reviver_call (OM:=Demo.model)
    (Reviver_init (MT:=Demo.tables) None (Some ["my_pkg"]) true
       (Some {[ ["my_pkg"; "tools"; "Foo"] := ["my_pkg"; "v2"; "tools"; "NewFoo"] ]}))
    ∅ (Demo.node "constructor" ["my_pkg"; "tools"; "Foo"] [])
  = Ok (VObj (Demo.Live "my_pkg.v2.tools.NewFoo" [])).
Proof.
  etrans.
  - apply (custom_namespace_override_used (MT:=Demo.tables) (OM:=Demo.model)
             None (Some ["my_pkg"]) true
             (Some {[ ["my_pkg"; "tools"; "Foo"] := ["my_pkg"; "v2"; "tools"; "NewFoo"] ]})
             ∅ (Demo.node "constructor" ["my_pkg"; "tools"; "Foo"] [])
             "my_pkg" ["tools"] "Foo" ["my_pkg"; "v2"; "tools"] "NewFoo").
    + reflexivity.
    + reflexivity.
    + by apply (bool_decide_unpack _).
    + cbn. set_solver.
    + vm_compute. reflexivity.
  - reflexivity.
Defined.

Lemma builtin_key_loaded_from_mapping_witness :
  Reviver_call (OM:=Demo.model)
    (Reviver_init (MT:=Demo.tables) None None true None)
    ∅ (Demo.node "constructor" Demo.prompt_key
         [("kwargs", VDict [("template", VStr "{x}")])])
  = Ok (VObj (Demo.Live "langchain_core.prompts.prompt.PromptTemplate"
                [("template", VStr "{x}")])).
Proof.
  etrans.
  - apply (builtin_key_loaded_from_mapping (MT:=Demo.tables) (OM:=Demo.model)
             None None true None ∅
             (Demo.node "constructor" Demo.prompt_key
                [("kwargs", VDict [("template", VStr "{x}")])])
             "langchain" ["prompts"; "prompt"] "PromptTemplate"
             ["langchain_core"; "prompts"; "prompt"] "PromptTemplate").
    + reflexivity.
    + reflexivity.
    + set_solver.
    + intros [? _]. discriminate.
    + vm_compute. reflexivity.
  - reflexivity.
Defined.

Lemma class_not_Serializable_rejected_witness :
  Reviver_call (OM:=Demo2.model)
    (Reviver_init (MT:=Demo.tables) None (Some ["os"]) true None)
    ∅ (Demo.node "constructor" ["os"; "system"]
         [("kwargs", VDict [("command", VStr "ls")])])
  = Raise (ValueError_invalid_namespace
             (VDict (Demo.node "constructor" ["os"; "system"]
                       [("kwargs", VDict [("command", VStr "ls")])]))).
Proof.
  apply (class_not_Serializable_rejected (OM:=Demo2.model)
           (Reviver_init (MT:=Demo.tables) None (Some ["os"]) true None) ∅
           (Demo.node "constructor" ["os"; "system"]
              [("kwargs", VDict [("command", VStr "ls")])])
           "os" [] "system" "os.system").
  - reflexivity.
  - reflexivity.
  - cbn. set_solver.
  - intros [_ ?]. discriminate.
  - vm_compute. reflexivity.
  - reflexivity.
Defined.

Lemma kwargs_absent_or_null_witness :
  Reviver_call (OM:=Demo.model)
    (Reviver_init (MT:=Demo.tables) None None true None)
    ∅ (Demo.node "constructor" Demo.prompt_key [])
  = Ok (VObj (Demo.Live "langchain_core.prompts.prompt.PromptTemplate" []))
  ∧ Reviver_call (OM:=Demo.model)
      (Reviver_init (MT:=Demo.tables) None None true None)
      ∅ (Demo.node "constructor" Demo.prompt_key [("kwargs", VNone)])
    = Raise TypeError.
Proof.
  split.
  - refine (proj1 (kwargs_absent_or_null (OM:=Demo.model)
                     (Reviver_init (MT:=Demo.tables) None None true None) ∅
                     (Demo.node "constructor" Demo.prompt_key [])
                     "langchain" ["prompts"; "prompt"] "PromptTemplate"
                     "langchain_core.prompts.prompt.PromptTemplate"
                     _ _ _ _ _ _) _);
      [reflexivity | reflexivity | cbn; set_solver | by intros [? _]
      | vm_compute; reflexivity | reflexivity | reflexivity].
  - refine (proj2 (kwargs_absent_or_null (OM:=Demo.model)
                     (Reviver_init (MT:=Demo.tables) None None true None) ∅
                     (Demo.node "constructor" Demo.prompt_key [("kwargs", VNone)])
                     "langchain" ["prompts"; "prompt"] "PromptTemplate"
                     "langchain_core.prompts.prompt.PromptTemplate"
                     _ _ _ _ _ _) _);
      [reflexivity | reflexivity | cbn; set_solver | by intros [? _]
      | vm_compute; reflexivity | reflexivity | reflexivity].
Defined.

Lemma secret_id_must_have_one_element_witness :
  Reviver_call (OM:=Demo.model)
    (Reviver_init (MT:=Demo.tables) (Some {[ "A" := "a"; "B" := "b" ]}) None true None)
    {[ "A" := "a" ]} (Demo.node "secret" ["A"; "B"] [])
  = Raise ValueError_unpack.
Proof.
  apply (secret_id_must_have_one_element (OM:=Demo.model)
           (Reviver_init (MT:=Demo.tables) (Some {[ "A" := "a"; "B" := "b" ]}) None true None)
           {[ "A" := "a" ]} (Demo.node "secret" ["A"; "B"] [])
           [VStr "A"; VStr "B"]).
  - reflexivity.
  - reflexivity.
  - discriminate.
Defined.

Lemma Reviver_returns_secret_object_or_argument_witness :
  (has_tag (Demo.node "secret" ["API_KEY"] []) "secret" = true
   ∧ ∃ s, VStr (object:=Demo.instance) "from-map" = VStr s)
  ∨ (has_tag (Demo.node "secret" ["API_KEY"] []) "constructor" = true
     ∧ ∃ o, VStr (object:=Demo.instance) "from-map" = VObj o)
  ∨ VStr "from-map" = VDict (Demo.node "secret" ["API_KEY"] []).
Proof.
  apply (Reviver_returns_secret_object_or_argument (OM:=Demo.model)
           (Reviver_init (MT:=Demo.tables) (Some {[ "API_KEY" := "from-map" ]}) None true None)
           ∅ (Demo.node "secret" ["API_KEY"] []) (VStr "from-map")).
  vm_compute. reflexivity.
Defined.

Lemma first_exception_aborts_the_walk_witness :
  _load (OM:=Demo.model) (Reviver_init (MT:=Demo.tables) None None false None) ∅
    (VDict [("name", VStr "chain");
            ("key", VDict (Demo.node "secret" ["API_KEY"] []));
            ("fn", VDict (Demo.node "not_implemented" ["my_pkg"; "Opaque"] []))])
  = Raise (KeyError_missing_secret (VStr "API_KEY")).
Proof.
  apply (proj1 (first_exception_aborts_the_walk (OM:=Demo.model)
                  (Reviver_init (MT:=Demo.tables) None None false None) ∅)
           [("name", VStr "chain")] [("name", VStr "chain")]
           "key" (VDict (Demo.node "secret" ["API_KEY"] []))
           [("fn", VDict (Demo.node "not_implemented" ["my_pkg"; "Opaque"] []))]).
  - apply load_items_Ok. reflexivity.
  - vm_compute. reflexivity.
Defined.

Lemma load_is_idempotent_witness :
  load (MT:=Demo.tables) (OM:=Demo.model)
    (VList [VStr "from-map";
            VObj (Demo.Live "langchain_core.prompts.prompt.PromptTemplate" []);
            VDict [("lc", VInt 1); ("type", VStr "secret")]])
    (Some {[ "API_KEY" := "from-map" ]}) None true None ∅
  = Ok (VList [VStr "from-map";
               VObj (Demo.Live "langchain_core.prompts.prompt.PromptTemplate" []);
               VDict [("lc", VInt 1); ("type", VStr "secret")]]).
Proof.
  apply (load_is_idempotent (MT:=Demo.tables) (OM:=Demo.model)
           (VList [VDict (Demo.node "secret" ["API_KEY"] []);
                   VDict (Demo.node "constructor" Demo.prompt_key []);
                   VDict [("lc", VInt 1); ("type", VStr "secret")]])).
  vm_compute. reflexivity.
Defined.

Lemma live_object_only_from_allowed_Serializable_witness :
  has_tag (Demo.node "constructor" ["my_pkg"; "tools"; "Foo"] []) "constructor" = true
  ∧ ∃ (s : string) (rest : list (value Demo.instance)) (name : value Demo.instance)
      (cls : string) (kwargs : list (string * value Demo.instance)),
      (it ← py_iter (dict_get (Demo.node "constructor" ["my_pkg"; "tools"; "Foo"] []) "id");
       unpack_star_last it)
        = Ok (VStr s :: rest, name)
      ∧ s ∈ valid_namespaces (Reviver_init (MT:=Demo.tables) None (Some ["my_pkg"]) true None)
      ∧ resolve_class (OM:=Demo.model)
          (Reviver_init (MT:=Demo.tables) None (Some ["my_pkg"]) true None)
          (VStr s :: rest) name = Ok cls
      ∧ issubclass_Serializable (ObjectModel:=Demo.model) cls = Some true
      ∧ construct (ObjectModel:=Demo.model) cls kwargs = Some (Demo.Live "my_pkg.tools.Foo" []).
Proof.
  apply (live_object_only_from_allowed_Serializable (OM:=Demo.model)
           (Reviver_init (MT:=Demo.tables) None (Some ["my_pkg"]) true None) ∅
           (Demo.node "constructor" ["my_pkg"; "tools"; "Foo"] [])
           (Demo.Live "my_pkg.tools.Foo" [])).
  vm_compute. reflexivity.
Defined.
